(** * angular-dfp: the refresh engine ([dfpRefresh]) and the duration parser

    A shallow embedding of two services of [src/angular-dfp.js]:

    - [dfpParseDuration] (lines 90-148), a pure function;
    - the [dfpRefresh] provider (lines 879-1678): buffering, barrier,
      global refresh, prioritisation and the per-slot interval registry.

    JavaScript exceptions are modelled by an error result.  The engine is
    stateful: its functions are written in a state-and-error monad whose
    state survives a [throw], as a mutated JavaScript object does.  The
    environment is taken to be a browser with the ad library loaded:
    [googletag.pubads()], [Promise.defer()] and [$interval] exist, and
    [console.assert] only logs. *)

From Stdlib Require Import ZArith String Ascii List Bool Lia.
From stdpp Require Import base option gmap strings list pretty.
Import ListNotations.

Local Open Scope string_scope.
Local Open Scope Z_scope.
Local Open Scope list_scope.

(** ** JavaScript values *)

(** A JavaScript number.  Integers are exact below 2^53, which covers every
    duration and count used here; [NaN] is what [Math.max] makes of
    [undefined]. *)
Inductive jsnum : Type :=
| Num (z : Z)
| NaN.

(** The values a caller can pass where the source inspects [typeof]. *)
Inductive value : Type :=
| VUndefined
| VNull
| VBool (b : bool)
| VNumber (n : jsnum)
| VString (s : string)
| VFunction
| VObject.

(** [typeof v] *)
Definition typeof (v : value) : string :=
  match v with
  | VUndefined => "undefined"
  | VNull => "object"
  | VBool _ => "boolean"
  | VNumber _ => "number"
  | VString _ => "string"
  | VFunction => "function"
  | VObject => "object"
  end.

(** Truthiness, as used by [Array.prototype.some] and [if]. *)
Definition truthy (v : value) : bool :=
  match v with
  | VUndefined | VNull => false
  | VBool b => b
  | VNumber (Num z) => negb (z =? 0)
  | VNumber NaN => false
  | VString s => negb (s =? "")%string
  | VFunction | VObject => true
  end.

(** A slot handed in by a caller: [null], or an object.  [key] is the
    property key the object converts to when it indexes [intervals]. *)
Inductive Slot : Type :=
| SlotNull
| SlotObj (id : nat) (key : string).

(** [{slot: slot, deferred: deferred}]; the deferred is named by a number. *)
Record Task : Type := { slot : Slot; deferred : nat }.

(** The reasons a [DFPRefreshError] is raised with (its message). *)
Inductive refresh_error : Type :=
| NoIntervalForSlot                    (* "No interval for given slot" *)
| InvalidOption (opt : string)         (* "Invalid option '" + option + "'" *)
| PriorityNotNumber (priority : value) (* "Priority '" + priority + "' is not a number" *).

(** The places where the language itself raises a [TypeError], and the one
    place where the parser raises it. *)
Inductive type_error : Type :=
| NotNumberOrString (interval : value) (* "'{0}' must be of number or string type" *)
| LengthOfUndefined                    (* tasks.length, tasks undefined *)
| SlotOfNull                           (* pair.slot, pair null *)
| InOfUndefined                        (* slot in self.intervals *)
| ReduceOfEmpty                        (* [].reduce(f) without initial value *).

Inductive error : Type :=
| DFPDurationError (interval : string) (* "Invalid interval: '" + interval + "'" *)
| DFPRefreshError (why : refresh_error)
| TypeError (why : type_error).

(** ** The duration parser *)

Module Duration.

(** [\d] *)
Definition is_digit (c : ascii) : bool :=
  ((48 <=? nat_of_ascii c) && (nat_of_ascii c <=? 57))%nat.

(** The longest prefix of digits, and what follows it: greedy [\d+]. *)
Fixpoint span_digits (s : string) : string * string :=
  match s with
  | String c s' =>
      if is_digit c
      then let (ds, rest) := span_digits s' in (String c ds, rest)
      else (EmptyString, s)
  | EmptyString => (EmptyString, EmptyString)
  end.

Definition starts_with (p s : string) : bool := String.prefix p s.

(** [(m?s|min|h)] tried at the head of [s]: the alternatives in order,
    [m?] greedy, so [ms] before [s], then [min], then [h]. *)
Definition match_unit (s : string) : option string :=
  if starts_with "ms" s then Some "ms"
  else if starts_with "s" s then Some "s"
  else if starts_with "min" s then Some "min"
  else if starts_with "h" s then Some "h"
  else None.

(** [interval.match(/(\d+)(m?s|min|h)?/)]: the pattern is not anchored, so
    the match starts at the first digit of the string.  The result array
    always has three entries; the last one is [undefined] ([None]) when the
    optional group took no part. *)
Fixpoint regex_match (s : string) : option (list (option string)) :=
  match s with
  | EmptyString => None
  | String c s' =>
      if is_digit c then
        let (ds, rest) := span_digits s in
        let unit := match_unit rest in
        Some [Some (ds ++ default "" unit)%string; Some ds; unit]
      else regex_match s'
  end.

Definition digit_value (c : ascii) : Z := Z.of_nat (nat_of_ascii c) - 48.

(** [parseInt(digits, 10)] on a string of decimal digits. *)
Definition parseInt (ds : string) : Z :=
  fold_left (fun acc c => 10 * acc + digit_value c) (list_ascii_of_string ds) 0.

(** [console.assert] logs and goes on; the three tests fall through to the
    hours case for every other [unit], [undefined] included. *)
Definition convertToMilliseconds (time : Z) (unit : option string) : Z :=
  if bool_decide (unit = Some "ms") then time
  else if bool_decide (unit = Some "s") then time * 1000
  else if bool_decide (unit = Some "min") then time * 60 * 1000
  else time * 60 * 60 * 1000.

Definition convert (m : list (option string)) : Z :=
  let time := parseInt (default "" (mjoin (m !! 1%nat))) in
  if (length m =? 2)%nat then time
  else convertToMilliseconds time (mjoin (m !! 2%nat)).

Definition dfpParseDuration (interval : value) : error + jsnum :=
  match interval with
  | VNumber n => inr n
  | VString s =>
      match regex_match s with
      | None => inl (DFPDurationError s)
      | Some m => inr (Num (convert m))
      end
  | _ => inl (TypeError (NotNumberOrString interval))
  end.

(** The unit table as the documentation words it: milliseconds per unit. *)
Definition spec_unit_factor (unit : string) : Z :=
  if String.eqb unit "ms" then 1
  else if String.eqb unit "s" then 1000
  else if String.eqb unit "min" then 60000
  else if String.eqb unit "h" then 3600000
  else 1.

End Duration.

(** ** The refresh engine: state *)

(** What the engine does to the outside world, in order. *)
Inductive event : Type :=
| pubads_refresh_all                 (* googletag.pubads().refresh() *)
| cmd_push (tasks : list Task)       (* googletag.cmd.push(function () {...}) *)
| console_warn (message : string).

(** What the function pushed by [refresh] does once the command queue runs
    it: one [refresh] call with the slots of [tasks], then every deferred
    resolved. *)
Inductive command_effect : Type :=
| pubads_refresh (slots : list Slot)
| deferred_resolve (d : nat).

Definition run_command (tasks : list Task) : list command_effect :=
  pubads_refresh (map slot tasks) :: map (fun task => deferred_resolve (deferred task)) tasks.

(** The provider object [self]: the configuration. [None] is [null]. *)
Record Provider : Type := {
  bufferInterval : option jsnum;
  bufferBarrier : option jsnum;
  oneShotBarrier : bool;
  refreshInterval : option jsnum;
  priority : gmap string jsnum
}.

(** The sealed object [isEnabled]. *)
Record Enabled : Type := {
  en_refresh : bool;
  en_interval : bool;
  en_barrier : bool
}.

(** The function given to [$interval]. *)
Inductive callback : Type :=
| refresh_task                (* the task of enableRefreshInterval *)
| buffer_task                 (* the task of enableBufferInterval *)
| slot_task (task : Task)     (* function () { scheduleRefresh(task); } *).

Record Timer : Type := { timer_fn : callback; timer_delay : option jsnum }.

Record State : Type := {
  self : Provider;
  buffer : list (option Task);           (* var buffer; None is null *)
  intervals : gmap string (option nat);  (* var intervals; Some None is null *)
  isEnabled : Enabled;
  timers : gmap nat Timer;               (* the intervals $interval keeps running *)
  next_timer : nat;
  next_deferred : nat;
  trace : list event
}.

Definition set_self (f : Provider -> Provider) (s : State) : State :=
  {| self := f (self s); buffer := buffer s; intervals := intervals s;
     isEnabled := isEnabled s; timers := timers s; next_timer := next_timer s;
     next_deferred := next_deferred s; trace := trace s |}.

Definition set_buffer (b : list (option Task)) (s : State) : State :=
  {| self := self s; buffer := b; intervals := intervals s;
     isEnabled := isEnabled s; timers := timers s; next_timer := next_timer s;
     next_deferred := next_deferred s; trace := trace s |}.

Definition set_intervals (i : gmap string (option nat)) (s : State) : State :=
  {| self := self s; buffer := buffer s; intervals := i;
     isEnabled := isEnabled s; timers := timers s; next_timer := next_timer s;
     next_deferred := next_deferred s; trace := trace s |}.

Definition set_isEnabled (f : Enabled -> Enabled) (s : State) : State :=
  {| self := self s; buffer := buffer s; intervals := intervals s;
     isEnabled := f (isEnabled s); timers := timers s; next_timer := next_timer s;
     next_deferred := next_deferred s; trace := trace s |}.

Definition set_timers (t : gmap nat Timer) (s : State) : State :=
  {| self := self s; buffer := buffer s; intervals := intervals s;
     isEnabled := isEnabled s; timers := t; next_timer := next_timer s;
     next_deferred := next_deferred s; trace := trace s |}.

Definition set_next_timer (n : nat) (s : State) : State :=
  {| self := self s; buffer := buffer s; intervals := intervals s;
     isEnabled := isEnabled s; timers := timers s; next_timer := n;
     next_deferred := next_deferred s; trace := trace s |}.

Definition set_next_deferred (n : nat) (s : State) : State :=
  {| self := self s; buffer := buffer s; intervals := intervals s;
     isEnabled := isEnabled s; timers := timers s; next_timer := next_timer s;
     next_deferred := n; trace := trace s |}.

Definition emit (e : event) (s : State) : State :=
  {| self := self s; buffer := buffer s; intervals := intervals s;
     isEnabled := isEnabled s; timers := timers s; next_timer := next_timer s;
     next_deferred := next_deferred s; trace := trace s ++ [e] |}.

Definition with_bufferInterval (v : option jsnum) (p : Provider) : Provider :=
  {| bufferInterval := v; bufferBarrier := bufferBarrier p;
     oneShotBarrier := oneShotBarrier p; refreshInterval := refreshInterval p;
     priority := priority p |}.

Definition with_bufferBarrier (v : option jsnum) (p : Provider) : Provider :=
  {| bufferInterval := bufferInterval p; bufferBarrier := v;
     oneShotBarrier := oneShotBarrier p; refreshInterval := refreshInterval p;
     priority := priority p |}.

Definition with_oneShotBarrier (v : bool) (p : Provider) : Provider :=
  {| bufferInterval := bufferInterval p; bufferBarrier := bufferBarrier p;
     oneShotBarrier := v; refreshInterval := refreshInterval p;
     priority := priority p |}.

Definition with_refreshInterval (v : option jsnum) (p : Provider) : Provider :=
  {| bufferInterval := bufferInterval p; bufferBarrier := bufferBarrier p;
     oneShotBarrier := oneShotBarrier p; refreshInterval := v;
     priority := priority p |}.

Definition with_priority (v : gmap string jsnum) (p : Provider) : Provider :=
  {| bufferInterval := bufferInterval p; bufferBarrier := bufferBarrier p;
     oneShotBarrier := oneShotBarrier p; refreshInterval := refreshInterval p;
     priority := v |}.

Definition with_refresh (v : bool) (e : Enabled) : Enabled :=
  {| en_refresh := v; en_interval := en_interval e; en_barrier := en_barrier e |}.

Definition with_interval (v : bool) (e : Enabled) : Enabled :=
  {| en_refresh := en_refresh e; en_interval := v; en_barrier := en_barrier e |}.

Definition with_barrier (v : bool) (e : Enabled) : Enabled :=
  {| en_refresh := en_refresh e; en_interval := en_interval e; en_barrier := v |}.

(** ** The monad: state that survives an exception *)

Definition M (A : Type) : Type := State -> State * (error + A).

Definition ret {A} (a : A) : M A := fun s => (s, inr a).
Definition throw {A} (e : error) : M A := fun s => (s, inl e).
Definition bind {A B} (m : M A) (k : A -> M B) : M B :=
  fun s => match m s with
           | (s', inr a) => k a s'
           | (s', inl e) => (s', inl e)
           end.
Definition gets {A} (f : State -> A) : M A := fun s => (s, inr (f s)).
Definition modify (f : State -> State) : M unit := fun s => (f s, inr tt).

Declare Scope js_scope.
Delimit Scope js_scope with js.
Notation "'let*' x ':=' m 'in' k" := (bind m (fun x => k))
  (at level 10, x name, m at level 200, k at level 200) : js_scope.
Notation "m ;; k" := (bind m (fun _ => k))
  (at level 100, k at level 200, right associativity) : js_scope.
Local Open Scope js_scope.

(** [xs.filter(f)] where [f] may throw. *)
Fixpoint filterM {A} (f : A -> M bool) (xs : list A) : M (list A) :=
  match xs with
  | [] => ret []
  | x :: xs' =>
      let* keep := f x in
      let* rest := filterM f xs' in
      ret (if keep then x :: rest else rest)
  end.

(** [xs.some(f)] where [f] may throw: stops at the first truthy answer. *)
Fixpoint someM {A} (f : A -> M value) (xs : list A) : M bool :=
  match xs with
  | [] => ret false
  | x :: xs' =>
      let* v := f x in
      if truthy v then ret true else someM f xs'
  end.

(** [for (...) body] over a list. *)
Fixpoint forM_ {A} (xs : list A) (body : A -> M unit) : M unit :=
  match xs with
  | [] => ret tt
  | x :: xs' => body x ;; forM_ xs' body
  end.

(** ** The refresh engine: the code of [self.$get] *)

Definition streq (a b : string) : bool := String.eqb a b.

Definition not_null {A} (o : option A) : bool :=
  match o with Some _ => true | None => false end.

(** [Options], frozen: its keys and its values. *)
Definition Options : list (string * string) :=
  [("REFRESH", "refresh"); ("INTERVAL", "interval"); ("BARRIER", "barrier")].

Definition Options_REFRESH : string := "refresh".
Definition Options_INTERVAL : string := "interval".
Definition Options_BARRIER : string := "barrier".

(** [Object.keys(o)] *)
Definition Object_keys (o : list (string * string)) : list string := map fst o.

(** The properties every plain object inherits from [Object.prototype];
    the operator [in] sees them too. *)
Definition Object_prototype : list string :=
  ["constructor"; "hasOwnProperty"; "isPrototypeOf"; "propertyIsEnumerable";
   "toLocaleString"; "toString"; "valueOf"; "__proto__";
   "__defineGetter__"; "__defineSetter__"; "__lookupGetter__"; "__lookupSetter__"].

(** [key in o] for a plain object [o] *)
Definition js_in (key : string) (o : list (string * string)) : bool :=
  existsb (streq key) (Object_keys o ++ Object_prototype).

(** [isEnabled[option]]: one of the three flags, an inherited member, or
    [undefined]. *)
Definition isEnabled_get (opt : string) (e : Enabled) : value :=
  if streq opt "refresh" then VBool (en_refresh e)
  else if streq opt "interval" then VBool (en_interval e)
  else if streq opt "barrier" then VBool (en_barrier e)
  else if streq opt "__proto__" then VObject
  else if existsb (streq opt) Object_prototype then VFunction
  else VUndefined.

(** The provider object has no property [intervals]: [self.intervals] is
    [undefined] ([None]) whatever the configuration. *)
Definition self_intervals (p : Provider) : option (gmap string (option nat)) := None.

(** The key [intervals[slot]] uses. *)
Definition slot_key (sl : Slot) : string :=
  match sl with
  | SlotNull => "null"
  | SlotObj _ key => key
  end.

Definition slot_not_null (sl : Slot) : bool :=
  match sl with
  | SlotNull => false
  | SlotObj _ _ => true
  end.

(** [undefined] becomes [NaN] under [Math.max]. *)
Definition ToNumber (v : option jsnum) : jsnum := default NaN v.

Definition Math_max (a b : option jsnum) : option jsnum :=
  Some match ToNumber a, ToNumber b with
       | Num x, Num y => Num (Z.max x y)
       | _, _ => NaN
       end.

(** [a === b] on numbers, with [None] for the one value [undefined] (or
    [null]) on either side. *)
Definition strict_eq (a b : option jsnum) : bool :=
  match a, b with
  | None, None => true
  | Some (Num x), Some (Num y) => x =? y
  | _, _ => false
  end.

(** [xs.reduce(f)] without an initial value *)
Definition reduce {A} (f : A -> A -> A) (xs : list A) : M A :=
  match xs with
  | [] => throw (TypeError ReduceOfEmpty)
  | x :: xs' => ret (fold_left f xs' x)
  end.

(** [buffer.fill(null)] *)
Definition fill_null (b : list (option Task)) : list (option Task) :=
  map (fun _ => None) b.

(** [Promise.defer()] *)
Definition Promise_defer : M nat :=
  let* d := gets next_deferred in
  modify (set_next_deferred (S d)) ;;
  ret d.

(** [$interval(fn, delay)]: a new running interval; its promise is the handle. *)
Definition interval_start (fn : callback) (delay : option jsnum) : M nat :=
  let* h := gets next_timer in
  modify (fun s => set_timers (<[h := {| timer_fn := fn; timer_delay := delay |}]> (timers s)) s) ;;
  modify (set_next_timer (S h)) ;;
  ret h.

(** [$interval.cancel(promise)]: stops that interval; nothing happens for
    [null], [undefined] or an interval already stopped. *)
Definition interval_cancel (promise : option nat) : M unit :=
  match promise with
  | Some h => modify (fun s => set_timers (delete h (timers s)) s)
  | None => ret tt
  end.

Definition ensureValidOption (opt : string) : M unit :=
  if negb (js_in opt Options)
  then throw (DFPRefreshError (InvalidOption opt))
  else ret tt.

Definition ensureValidPriority (priority : value) : M unit :=
  if negb (streq (typeof priority) "number")
  then throw (DFPRefreshError (PriorityNotNumber priority))
  else ret tt.

Definition dfpRefresh_hasSlotInterval (sl : Slot) : M bool :=
  let* registry := gets (fun s => self_intervals (self s)) in
  match registry with
  | None => throw (TypeError InOfUndefined)
  | Some m => ret (not_null (m !! slot_key sl))
  end.

Definition dfpRefresh_cancelInterval (sl : Slot) : M unit :=
  let* has := dfpRefresh_hasSlotInterval sl in
  if negb has then throw (DFPRefreshError NoIntervalForSlot)
  else
    let* promise := gets (fun s => intervals s !! slot_key sl) in
    interval_cancel (mjoin promise) ;;
    modify (fun s => set_intervals (delete (slot_key sl) (intervals s)) s).

Definition dfpRefresh_hasBufferInterval : M bool :=
  gets (fun s => not_null (bufferInterval (self s))).

Definition dfpRefresh_bufferIntervalIsEnabled : M bool :=
  gets (fun s => en_interval (isEnabled s)).

Definition dfpRefresh_hasBufferBarrier : M bool :=
  gets (fun s => not_null (bufferBarrier (self s))).

Definition dfpRefresh_bufferBarrierIsEnabled : M bool :=
  gets (fun s => en_barrier (isEnabled s)).

Definition dfpRefresh_hasRefreshInterval : M bool :=
  gets (fun s => not_null (refreshInterval (self s))).

Definition dfpRefresh_refreshIntervalIsEnabled : M bool :=
  gets (fun s => en_refresh (isEnabled s)).

Definition dfpRefresh_has (opt : string) : M bool :=
  if streq opt Options_REFRESH then dfpRefresh_hasRefreshInterval
  else if streq opt Options_INTERVAL then dfpRefresh_hasBufferInterval
  else if streq opt Options_BARRIER then dfpRefresh_hasBufferBarrier
  else throw (DFPRefreshError (InvalidOption opt)).

Definition dfpRefresh_isEnabled (opt : string) : M value :=
  ensureValidOption opt ;;
  gets (fun s => isEnabled_get opt (isEnabled s)).

Definition dfpRefresh_isBuffering : M bool :=
  someM dfpRefresh_isEnabled [Options_BARRIER; Options_INTERVAL].

(** [self.priority[option] = priority] after both checks; nothing else. *)
Definition dfpRefresh_setPriority (opt : string) (weight : value) : M unit :=
  ensureValidOption opt ;;
  ensureValidPriority weight ;;
  match weight with
  | VNumber n =>
      modify (set_self (fun p => with_priority (<[opt := n]> (priority p)) p))
  | _ => ret tt
  end.

Definition dfpRefresh_getPriority (opt : string) : M (option jsnum) :=
  ensureValidOption opt ;;
  gets (fun s => priority (self s) !! opt).

(** [pair.slot !== null] under [tasks.filter]: reading [slot] of a [null]
    entry raises. *)
Fixpoint filter_slots (tasks : list (option Task)) : M (list Task) :=
  match tasks with
  | [] => ret []
  | None :: _ => throw (TypeError SlotOfNull)
  | Some entry :: tasks' =>
      let* rest := filter_slots tasks' in
      ret (if slot_not_null (slot entry) then entry :: rest else rest)
  end.

(** [refresh(tasks)]; [None] is the call without argument. *)
Definition refresh (tasks : option (list (option Task))) : M unit :=
  (if not_null tasks then ret tt else modify (emit pubads_refresh_all)) ;;
  match tasks with
  | None => throw (TypeError LengthOfUndefined)
  | Some tasks =>
      if (length tasks =? 0)%nat then ret tt
      else
        let* tasks := filter_slots tasks in
        modify (emit (cmd_push tasks))
  end.

Definition flushBuffer : M unit :=
  let* b := gets buffer in
  refresh (Some b) ;;
  modify (set_buffer []).

(** The [console.assert] at the head of the three [enable...] functions logs
    and goes on, as everywhere. *)
Definition enableRefreshInterval : M unit :=
  let* delay := gets (fun s => refreshInterval (self s)) in
  let* promise := interval_start refresh_task delay in
  modify (fun s => set_intervals (<["refresh" := Some promise]> (intervals s)) s) ;;
  modify (set_isEnabled (with_refresh true)).

Definition disableRefreshInterval : M unit :=
  let* on := gets (fun s => en_refresh (isEnabled s)) in
  if on then
    let* promise := gets (fun s => intervals s !! "refresh") in
    interval_cancel (mjoin promise) ;;
    modify (fun s => set_intervals (<["refresh" := None]> (intervals s)) s) ;;
    modify (set_isEnabled (with_refresh false))
  else ret tt.

Definition enableBufferInterval : M unit :=
  let* delay := gets (fun s => bufferInterval (self s)) in
  let* promise := interval_start buffer_task delay in
  modify (fun s => set_intervals (<["buffer" := Some promise]> (intervals s)) s) ;;
  modify (set_isEnabled (with_interval true)).

Definition disableBufferInterval : M unit :=
  let* on := gets (fun s => en_interval (isEnabled s)) in
  if on then
    let* promise := gets (fun s => intervals s !! "buffer") in
    interval_cancel (mjoin promise) ;;
    modify (fun s => set_intervals (<["buffer" := None]> (intervals s)) s) ;;
    modify (set_isEnabled (with_interval false))
  else ret tt.

Definition enableBufferBarrier : M unit :=
  modify (set_isEnabled (with_barrier true)).

Definition disableBufferBarrier : M unit :=
  modify (set_isEnabled (with_barrier false)).

Definition disable (opt : string) : M unit :=
  if streq opt Options_REFRESH then disableRefreshInterval
  else if streq opt Options_INTERVAL then disableBufferInterval
  else if streq opt Options_BARRIER then disableBufferBarrier
  else ret tt.

(** [enable(option, yes)]; [yes] is [None] when the argument is left out. *)
Definition enable (opt : string) (yes : option bool) : M unit :=
  if bool_decide (yes = Some false) then disable opt
  else if streq opt Options_REFRESH then enableRefreshInterval
  else if streq opt Options_INTERVAL then enableBufferInterval
  else if streq opt Options_BARRIER then enableBufferBarrier
  else ret tt.

Definition prioritize : M unit :=
  let options := Object_keys Options in
  let* available := filterM dfpRefresh_has options in
  let* priorities :=
    gets (fun s => map (fun opt => priority (self s) !! opt) available) in
  let* maximum := reduce Math_max priorities in
  forM_ (combine available priorities) (fun '(opt, weight) =>
    if strict_eq weight maximum then enable opt None else disable opt).

Section Engine.

(** The injected duration service. *)
Variable parseDuration : value -> error + jsnum.

Definition dfpRefresh_setBufferInterval (interval : value) : M unit :=
  match parseDuration interval with
  | inl e => throw e
  | inr ms =>
      modify (set_self (with_bufferInterval (Some ms))) ;;
      prioritize
  end.

Definition dfpRefresh_setRefreshInterval (interval : value) : M unit :=
  match parseDuration interval with
  | inl e => throw e
  | inr ms =>
      modify (set_self (with_refreshInterval (Some ms))) ;;
      enableRefreshInterval ;;
      prioritize
  end.

End Engine.

Definition dfpRefresh_clearBufferInterval : M unit :=
  let* has := dfpRefresh_hasBufferInterval in
  if negb has then
    modify (emit (console_warn "clearBufferInterval had no effect because no interval was set."))
  else
    disableBufferInterval ;;
    modify (set_self (with_bufferInterval None)) ;;
    prioritize.

(** [oneShot] is [None] when the argument is left out. *)
Definition dfpRefresh_setBufferBarrier (numberOfAds : jsnum) (oneShot : option bool) : M unit :=
  modify (set_self (with_bufferBarrier (Some numberOfAds))) ;;
  modify (set_self (with_oneShotBarrier (match oneShot with None => true | Some b => b end))) ;;
  prioritize.

Definition dfpRefresh_clearBufferBarrier : M unit :=
  let* has := dfpRefresh_hasBufferBarrier in
  if negb has then
    modify (emit (console_warn "clearBufferBarrier had not effect because no barrier was set."))
  else
    modify (set_self (with_bufferBarrier None)) ;;
    prioritize.

Definition dfpRefresh_clearRefreshInterval : M unit :=
  let* has := dfpRefresh_hasRefreshInterval in
  (if negb has then
     modify (emit (console_warn "clearRefreshInterval had no effect because no refresh interval was set."))
   else ret tt) ;;
  disableRefreshInterval ;;
  prioritize.

Definition bufferRefresh (task : Task) : M unit :=
  modify (fun s => set_buffer (buffer s ++ [Some task]) s) ;;
  let* on := gets (fun s => isEnabled_get Options_BARRIER (isEnabled s)) in
  if negb (truthy on) then ret tt
  else
    let* len := gets (fun s => length (buffer s)) in
    let* barrier := gets (fun s => bufferBarrier (self s)) in
    if strict_eq (Some (Num (Z.of_nat len))) barrier then
      flushBuffer ;;
      let* oneShot := gets (fun s => oneShotBarrier (self s)) in
      if oneShot then dfpRefresh_clearBufferBarrier else ret tt
    else ret tt.

Definition scheduleRefresh (task : Task) : M unit :=
  let* buffering := dfpRefresh_isBuffering in
  if buffering then bufferRefresh task
  else refresh (Some [Some task]).

Section Intervals.

Variable parseDuration : value -> error + jsnum.

Definition addSlotInterval (task : Task) (interval : value) : M unit :=
  match parseDuration interval with
  | inl e => throw e
  | inr ms =>
      let* promise := interval_start (slot_task task) (Some ms) in
      modify (fun s => set_intervals (<[slot_key (slot task) := Some promise]> (intervals s)) s)
  end.

(** [dfpRefresh(slot, interval, callback)].  A function in the place of
    [interval] is the callback; the body never calls the callback. *)
Definition dfpRefresh (sl : Slot) (interval : value) : M nat :=
  let* d := Promise_defer in
  let interval := if streq (typeof interval) "function" then VUndefined else interval in
  let task := {| slot := sl; deferred := d |} in
  match interval with
  | VUndefined => scheduleRefresh task
  | _ => addSlotInterval task interval
  end ;;
  ret d.

End Intervals.

(** What an interval runs when it fires. *)
Definition run_callback (fn : callback) : M unit :=
  match fn with
  | refresh_task =>
      modify (fun s => set_buffer (fill_null (buffer s)) s) ;;
      refresh None
  | buffer_task =>
      let* b := gets buffer in
      refresh (Some b) ;;
      modify (fun s => set_buffer (fill_null (buffer s)) s)
  | slot_task task => scheduleRefresh task
  end.

(** The interval [h] fires, if it is still running. *)
Definition fire (h : nat) : M unit :=
  let* t := gets (fun s => timers s !! h) in
  match t with
  | Some t => run_callback (timer_fn t)
  | None => ret tt
  end.

(** The provider as [dfpRefreshProvider] leaves it. *)
Definition dfpRefreshProvider : Provider :=
  {| bufferInterval := Some (Num 1000);
     bufferBarrier := None;
     oneShotBarrier := true;
     refreshInterval := Some (Num (60 * 60 * 1000));
     priority := {[ "refresh" := Num 1; "interval" := Num 1; "barrier" := Num 1 ]} |}.

(** The variables of [$get] as declared, before its last statement. *)
Definition declare (p : Provider) : State :=
  {| self := p;
     buffer := [];
     intervals := {[ "refresh" := None; "buffer" := None ]};
     isEnabled := {| en_refresh := not_null (refreshInterval p);
                     en_interval := not_null (bufferInterval p);
                     en_barrier := not_null (bufferBarrier p) |};
     timers := ∅;
     next_timer := 0;
     next_deferred := 0;
     trace := [] |}.

(** [$get]: the declarations, then [prioritize()]. *)
Definition get_service (p : Provider) : State * (error + unit) :=
  prioritize (declare p).

(** The tasks [refresh] keeps: those whose slot is not [null]. *)
Definition has_slot (task : Task) : bool := slot_not_null (slot task).

(** ** Sample tasks and states *)

Definition task_A : Task := {| slot := SlotObj 1 "A"; deferred := 7 |}.
Definition task_B : Task := {| slot := SlotObj 2 "B"; deferred := 8 |}.

(** The default configuration with a barrier of [n] installed and enabled,
    and [b] in the buffer. *)
Definition barrier_state (n : Z) (oneShot : bool) (b : list (option Task)) : State :=
  set_buffer b
    (set_isEnabled (with_barrier true)
       (set_self (fun p => with_oneShotBarrier oneShot (with_bufferBarrier (Some (Num n)) p))
          (declare dfpRefreshProvider))).

(** ** The priority shortcuts of [dfpRefresh] *)

(** [setRefreshPriority(priority)] calls [setPriority('refresh')]: the
    weight is not passed on. *)
Definition dfpRefresh_setRefreshPriority (weight : value) : M unit :=
  dfpRefresh_setPriority "refresh" VUndefined.

Definition dfpRefresh_getRefreshPriority : M (option jsnum) :=
  dfpRefresh_getPriority "refresh".

Definition dfpRefresh_setBarrierPriority (weight : value) : M unit :=
  dfpRefresh_setPriority "barrier" VUndefined.

Definition dfpRefresh_getBarrierPriority : M (option jsnum) :=
  dfpRefresh_getPriority "barrier".

Definition dfpRefresh_setIntervalPriority (weight : value) : M unit :=
  ensureValidPriority weight ;;
  dfpRefresh_setPriority "interval" VUndefined.

Definition dfpRefresh_getIntervalPriority : M (option jsnum) :=
  dfpRefresh_getPriority "interval".

(** ** [dfpFormat] *)

Module Format.

(** What follows an opening brace, if it goes on as [\d+}]: the digits. *)
Definition placeholder (s : string) : option string :=
  let (ds, rest) := Duration.span_digits s in
  if negb (String.eqb ds "") && Duration.starts_with "}" rest then Some ds else None.

(** A string is its own array index when it is the decimal numeral of a
    number: no leading zero. *)
Definition canonical (ds : string) : bool :=
  String.eqb ds "0" || negb (Duration.starts_with "0" ds).

(** The replacer [function (match, index)]: [index] is the digits as a
    string, compared as a number with [args.length] and used as a property
    key of [args]; a key that names no element gives [undefined], which
    [replace] prints. *)
Definition replacer (args : list string) (index : string) : string :=
  if Duration.parseInt index <? Z.of_nat (length args) then
    if canonical index
    then nth (Z.to_nat (Duration.parseInt index)) args "undefined"
    else "undefined"
  else ("{" +:+ index +:+ "}").

(** [string.replace(/{(\d+)}/g, replacer)], from left to right: at every
    position the pattern is tried; a match is replaced and the scan goes on
    behind it ([skip] characters are still part of the last match), any
    other character is copied. *)
Fixpoint scan (args : list string) (skip : nat) (s : string) : string :=
  match s with
  | EmptyString => EmptyString
  | String c rest =>
      match skip with
      | S skip' => scan args skip' rest
      | O =>
          if Ascii.eqb c "{" then
            match placeholder rest with
            | Some ds => replacer args ds +:+ scan args (String.length ds + 1) rest
            | None => String c (scan args 0 rest)
            end
          else String c (scan args 0 rest)
      end
  end.

(** [dfpFormat(string, ...args)]; every argument is given as the string it
    prints as. *)
Definition dfpFormat (text : string) (args : list string) : string :=
  scan args 0 text.

End Format.

(** ** [dfpIDGenerator] *)

Module IDGenerator.

(** [id in generatedIDs]: the keys written so far, and what a plain object
    inherits. *)
Definition js_in (id : string) (generatedIDs : gset string) : bool :=
  bool_decide (id ∈ generatedIDs) || existsb (streq id) Object_prototype.

(** [generateID()].  [draws] are the values [Math.random().toString().slice(2)]
    takes one call after the other; the loop goes on while the id is taken,
    and has no result when the draws run out. *)
Fixpoint generateID (draws : list string) (generatedIDs : gset string)
  : option (string * list string * gset string) :=
  match draws with
  | [] => None
  | number :: draws' =>
      let id := "gpt-ad-" +:+ number in
      if js_in id generatedIDs then generateID draws' generatedIDs
      else Some (id, draws', {[ id ]} ∪ generatedIDs)
  end.

(** [dfpIDGenerator(element)].  The element is absent ([None]) or has an
    [id], empty when none is set; the result is the id returned, the
    element as it is left, the draws and the object [generatedIDs]. *)
Definition dfpIDGenerator (element : option string) (draws : list string)
    (generatedIDs : gset string)
  : option (string * option string * list string * gset string) :=
  match element with
  | Some own =>
      if negb (String.eqb own "") && negb (js_in own generatedIDs)
      then Some (own, Some own, draws, generatedIDs)
      else
        match generateID draws generatedIDs with
        | Some (id, draws', generatedIDs') => Some (id, Some id, draws', generatedIDs')
        | None => None
        end
  | None =>
      match generateID draws generatedIDs with
      | Some (id, draws', generatedIDs') => Some (id, None, draws', generatedIDs')
      | None => None
      end
  end.

Definition isTaken (id : string) (generatedIDs : gset string) : bool :=
  js_in id generatedIDs.

Definition isUnique (id : string) (generatedIDs : gset string) : bool :=
  negb (isTaken id generatedIDs).

End IDGenerator.

(** ** [responsiveResize]: the index of the current boundary *)

Module Responsive.

(** [boundaries[i]]; [None] is [undefined]. *)
Definition at_index (boundaries : list Z) (i : Z) : option Z :=
  if i <? 0 then None else boundaries !! Z.to_nat i.

(** [a < b] and [a >= b] on numbers; with [undefined] on a side both are
    false. *)
Definition js_lt (a b : option Z) : bool :=
  match a, b with
  | Some x, Some y => x <? y
  | _, _ => false
  end.

Definition js_ge (a b : option Z) : bool :=
  match a, b with
  | Some x, Some y => y <=? x
  | _, _ => false
  end.



Definition couldGrow (width : option Z) (boundaries : list Z) (index : Z) : bool :=
  if Z.of_nat (length boundaries) <=? index + 1 then false
  else if js_lt width (at_index boundaries (index + 1)) then false
  else true.

Definition couldShrink (width : option Z) (boundaries : list Z) (index : Z) : bool :=
  if index - 1 <? 0 then false
  else if js_ge width (at_index boundaries index) then false
  else true.

(** [watchListener()]: the index after the event, [transition(+1)],
    [transition(-1)] or nothing. *)
Definition watchListener (width : option Z) (boundaries : list Z) (index : Z) : Z :=
  if couldGrow width boundaries index then index + 1
  else if couldShrink width boundaries index then index - 1
  else index.

End Responsive.

(** ** The [dfp] provider: the configuration command *)

Module Dfp.

(** A configuration value of the provider. *)
Inductive cfg : Type :=
| CUndefined
| CNull
| CBool (b : bool)
| CNumber (n : jsnum)
| CString (s : string)
| CArray (items : list value)
| CObject (props : list (string * value)).

Definition cfg_truthy (c : cfg) : bool :=
  match c with
  | CUndefined | CNull => false
  | CBool b => b
  | CNumber (Num z) => negb (z =? 0)
  | CNumber NaN => false
  | CString s => negb (String.eqb s "")
  | CArray _ | CObject _ => true
  end.

Definition cfg_typeof (c : cfg) : string :=
  match c with
  | CUndefined => "undefined"
  | CNull => "object"
  | CBool _ => "boolean"
  | CNumber _ => "number"
  | CString _ => "string"
  | CArray _ | CObject _ => "object"
  end.

(** The own enumerable properties [for (key in o)] visits and
    [hasOwnProperty] keeps: the properties of an object, the indices of an
    array. *)
Definition own_properties (c : cfg) : list (string * value) :=
  match c with
  | CObject props => props
  | CArray items => imap (fun i v => (pretty i, v)) items
  | _ => []
  end.

(** The calls made on [googletag.pubads()] and [googletag]. *)
Inductive call : Type :=
| enableSingleRequest
| enableVideoAds
| collapseIfEmpty_call
| disableInitialLoad_call
| enableSyncRendering_call
| setForceSafeFrame (force : bool)
| setCentering (centering : bool)
| setLocation_address (address : string)
| setLocation_apply (args : list value)
| setPublisherProvidedId (ppid : string)
| setTargeting (key : string) (v : value)
| setSafeFrameConfig (config : cfg)
| enableServices.

(** The provider object [self]. *)
Record Config : Type := {
  enableSingleRequestArchitecture : bool;
  enableVideoAds_flag : bool;
  collapseIfEmpty : bool;
  disableInitialLoad : bool;
  enableSyncRendering : bool;
  centering : bool;
  location : cfg;
  ppid : cfg;
  globalTargeting : cfg;
  forceSafeFrame : bool;
  safeFrameConfig : cfg
}.

(** The provider as [dfpProvider] leaves it. *)
Definition defaults : Config :=
  {| enableSingleRequestArchitecture := true;
     enableVideoAds_flag := true;
     collapseIfEmpty := true;
     disableInitialLoad := true;
     enableSyncRendering := false;
     centering := false;
     location := CNull;
     ppid := CNull;
     globalTargeting := CNull;
     forceSafeFrame := false;
     safeFrameConfig := CNull |}.

(** The message of a [DFPConfigurationError], or the calls made. *)
Definition step : Type := string + list call.

Definition addSafeFrameConfig (self : Config) : step :=
  if negb (cfg_truthy (safeFrameConfig self)) then inr []
  else if negb (String.eqb (cfg_typeof (globalTargeting self)) "object")
  then inl "Targeting must be an object"
  else inr [setSafeFrameConfig (safeFrameConfig self)].

Definition addTargeting (self : Config) : step :=
  if negb (cfg_truthy (globalTargeting self)) then inr []
  else if negb (String.eqb (cfg_typeof (globalTargeting self)) "object")
  then inl "Targeting must be an object"
  else inr (map (fun kv => setTargeting (fst kv) (snd kv))
              (own_properties (globalTargeting self))).

Definition addLocation (self : Config) : step :=
  if negb (cfg_truthy (location self)) then inr []
  else
    match location self with
    | CString address => inr [setLocation_address address]
    | CArray args => inr [setLocation_apply args]
    | _ => inl "Location must be an array or string"
    end.

Definition addPPID (self : Config) : step :=
  if negb (cfg_truthy (ppid self)) then inr []
  else
    match ppid self with
    | CString id => inr [setPublisherProvidedId id]
    | _ => inl "PPID must be a string"
    end.

(** The steps of the command one after the other; the calls made before an
    error stay made. *)
Fixpoint run_steps (steps : list step) (done : list call)
  : list call * (string + unit) :=
  match steps with
  | [] => (done, inr tt)
  | inl message :: _ => (done, inl message)
  | inr calls :: steps' => run_steps steps' (done ++ calls)
  end.

(** The function [dfp()] pushes on the command queue. *)
Definition configure (self : Config) : list call * (string + unit) :=
  run_steps
    [ inr (if enableSingleRequestArchitecture self then [enableSingleRequest] else []);
      inr (if enableVideoAds_flag self then [enableVideoAds] else []);
      inr (if collapseIfEmpty self then [collapseIfEmpty_call] else []);
      inr (if disableInitialLoad self then [disableInitialLoad_call] else []);
      inr (if enableSyncRendering self then [enableSyncRendering_call] else []);
      inr [setForceSafeFrame (forceSafeFrame self)];
      inr [setCentering (centering self)];
      addLocation self;
      addPPID self;
      addTargeting self;
      addSafeFrameConfig self;
      inr [enableServices] ]
    [].

End Dfp.

(** ** Notions used to state the properties *)

(** The string without its first [n] characters. *)
Fixpoint drop_chars (n : nat) (s : string) : string :=
  match n, s with
  | O, _ => s
  | S n', String _ rest => drop_chars n' rest
  | S _, EmptyString => EmptyString
  end.

(** No opening brace in the string. *)
Definition no_brace (s : string) : bool :=
  forallb (fun c => negb (Ascii.eqb c "{")) (list_ascii_of_string s).

(** The configurations the command of [dfp()] goes through without error:
    a location that is unset, a string or an array; a PPID that is unset or
    a string; a targeting that is unset or of type object; and, when a
    safe-frame configuration is set, a targeting of type object ([null]
    included). *)
Definition config_ok (self : Dfp.Config) : bool :=
  (negb (Dfp.cfg_truthy (Dfp.location self))
   || match Dfp.location self with Dfp.CString _ | Dfp.CArray _ => true | _ => false end)
  && (negb (Dfp.cfg_truthy (Dfp.ppid self))
      || match Dfp.ppid self with Dfp.CString _ => true | _ => false end)
  && (negb (Dfp.cfg_truthy (Dfp.globalTargeting self))
      || String.eqb (Dfp.cfg_typeof (Dfp.globalTargeting self)) "object")
  && (negb (Dfp.cfg_truthy (Dfp.safeFrameConfig self))
      || String.eqb (Dfp.cfg_typeof (Dfp.globalTargeting self)) "object").

(** A step that made its calls, and the calls it made. *)
Definition step_ok (st : Dfp.step) : bool :=
  match st with inr _ => true | inl _ => false end.

Definition step_calls (st : Dfp.step) : list Dfp.call :=
  match st with inr calls => calls | inl _ => [] end.


(** * Properties *)

(** ** The duration parser *)

(** Scanning a run of digits followed by something that is not a digit
    splits exactly there. *)
Lemma span_digits_app (ds rest : string) :
  forallb Duration.is_digit (list_ascii_of_string ds) = true ->
  match rest with String c _ => Duration.is_digit c = false | EmptyString => True end ->
  Duration.span_digits (ds +:+ rest) = (ds, rest).
Proof.
  intros Hds Hrest. induction ds as [|c ds IH].
  - change ("" +:+ rest) with rest.
    destruct rest as [|c r]; [reflexivity|].
    cbn [Duration.span_digits]. now rewrite Hrest.
  - change (String c ds +:+ rest) with (String c (ds +:+ rest)).
    cbn [list_ascii_of_string forallb] in Hds.
    apply andb_true_iff in Hds as [Hc Hds].
    cbn [Duration.span_digits]. rewrite Hc, (IH Hds). reflexivity.
Qed.

Lemma append_empty_r (x : string) : x +:+ "" = x.
Proof.
  induction x as [|a x IH]; [reflexivity|].
  change (String a x +:+ "") with (String a (x +:+ "")). now rewrite IH.
Qed.

(** A number is returned as it is. *)
Lemma dfpParseDuration_number (n : jsnum) :
  Duration.dfpParseDuration (VNumber n) = inr n.
Proof. reflexivity. Qed.

(** The examples of the documentation and the unit table on one number. *)
Lemma dfpParseDuration_units :
  Duration.dfpParseDuration (VString "5min") = inr (Num 300000) /\
  Duration.dfpParseDuration (VNumber (Num 1500)) = inr (Num 1500) /\
  Duration.dfpParseDuration (VString "7ms") = inr (Num 7) /\
  Duration.dfpParseDuration (VString "7s") = inr (Num 7000) /\
  Duration.dfpParseDuration (VString "7min") = inr (Num 420000) /\
  Duration.dfpParseDuration (VString "7h") = inr (Num 25200000).
Proof. repeat split; vm_compute; reflexivity. Qed.

(** A string without a digit is a format error; what is neither a string
    nor a number is a type error. *)
Lemma dfpParseDuration_errors :
  Duration.dfpParseDuration (VString "bogus") = inl (DFPDurationError "bogus") /\
  Duration.dfpParseDuration VNull = inl (TypeError (NotNumberOrString VNull)) /\
  Duration.dfpParseDuration VUndefined = inl (TypeError (NotNumberOrString VUndefined)) /\
  Duration.dfpParseDuration (VBool true) = inl (TypeError (NotNumberOrString (VBool true))) /\
  Duration.dfpParseDuration VObject = inl (TypeError (NotNumberOrString VObject)).
Proof. repeat split; reflexivity. Qed.

(** Digits followed by one of the four units and nothing else: the number
    times the factor of the unit table. *)
Lemma dfpParseDuration_suffix (c : ascii) (ds unit : string) :
  forallb Duration.is_digit (list_ascii_of_string (String c ds)) = true ->
  In unit ["ms"; "s"; "min"; "h"] ->
  Duration.dfpParseDuration (VString (String c ds +:+ unit))
  = inr (Num (Duration.parseInt (String c ds) * Duration.spec_unit_factor unit)).
Proof.
  intros Hds Hunit.
  assert (Hhead : match unit with
                  | String a _ => Duration.is_digit a = false
                  | EmptyString => True
                  end).
  { cbn in Hunit. destruct Hunit as [<-|[<-|[<-|[<-|[]]]]]; reflexivity. }
  assert (Hu : Duration.match_unit unit = Some unit).
  { cbn in Hunit. destruct Hunit as [<-|[<-|[<-|[<-|[]]]]]; reflexivity. }
  pose proof (span_digits_app (String c ds) unit Hds Hhead) as Hspan.
  assert (Hm : Duration.regex_match (String c ds +:+ unit)
               = Some [Some (String c ds +:+ unit); Some (String c ds); Some unit]).
  { cbn [list_ascii_of_string forallb] in Hds.
    apply andb_true_iff in Hds as [Hc _].
    change (String c ds +:+ unit) with (String c (ds +:+ unit)) in *.
    cbn [Duration.regex_match]. rewrite Hc, Hspan, Hu. reflexivity. }
  unfold Duration.dfpParseDuration. rewrite Hm.
  change (Duration.convert [Some (String c ds +:+ unit); Some (String c ds); Some unit])
    with (Duration.convertToMilliseconds (Duration.parseInt (String c ds)) (Some unit)).
  generalize (Duration.parseInt (String c ds)). intros time.
  cbn in Hunit. destruct Hunit as [<-|[<-|[<-|[<-|[]]]]];
    unfold Duration.convertToMilliseconds; repeat case_bool_decide;
    try congruence; cbn; f_equal; f_equal; lia.
Qed.

(** The match array has three entries whatever the string, so the test
    [match.length === 2] of [convert] never holds. *)
Lemma regex_match_length (s : string) (m : list (option string)) :
  Duration.regex_match s = Some m -> length m = 3%nat.
Proof.
  induction s as [|c s IH]; cbn -[Duration.is_digit]; [discriminate|].
  destruct (Duration.is_digit c).
  - destruct (Duration.span_digits s). intros [= <-]. reflexivity.
  - exact IH.
Qed.

(** A string of digits alone is taken for hours. *)
Lemma dfpParseDuration_digits_only (c : ascii) (ds : string) :
  forallb Duration.is_digit (list_ascii_of_string (String c ds)) = true ->
  Duration.dfpParseDuration (VString (String c ds))
  = inr (Num (Duration.parseInt (String c ds) * 60 * 60 * 1000)).
Proof.
  intros Hds. unfold Duration.dfpParseDuration.
  assert (Hm : Duration.regex_match (String c ds)
               = Some [Some (String c ds); Some (String c ds); None]).
  { pose proof (span_digits_app (String c ds) EmptyString Hds I) as Hspan.
    rewrite append_empty_r in Hspan.
    cbn [list_ascii_of_string forallb] in Hds.
    apply andb_true_iff in Hds as [Hc _].
    cbn [Duration.regex_match]. rewrite Hc, Hspan.
    cbn [Duration.match_unit Duration.starts_with String.prefix default].
    now rewrite append_empty_r. }
  rewrite Hm. reflexivity.
Qed.

(** C9: the claim gives a string without suffix the meaning of milliseconds;
    the code reads ["1500"] as 1500 hours. *)
Theorem dfpParseDuration_no_suffix_is_hours :
  Duration.dfpParseDuration (VString "1500") = inr (Num 5400000000) /\
  Duration.dfpParseDuration (VString "1500") <> inr (Num 1500).
Proof. split; [vm_compute; reflexivity | vm_compute; discriminate]. Qed.

(** ** Prioritisation and the option names *)

(** [dfpRefresh.has] knows the values of [Options], not its keys. *)
Lemma has_rejects_keys (s : State) :
  dfpRefresh_has "REFRESH" s = (s, inl (DFPRefreshError (InvalidOption "REFRESH"))).
Proof. reflexivity. Qed.

(** [ensureValidOption] knows the keys of [Options], not its values. *)
Lemma ensureValidOption_rejects_values (s : State) :
  ensureValidOption Options_REFRESH s = (s, inl (DFPRefreshError (InvalidOption "refresh"))) /\
  ensureValidOption Options_INTERVAL s = (s, inl (DFPRefreshError (InvalidOption "interval"))) /\
  ensureValidOption Options_BARRIER s = (s, inl (DFPRefreshError (InvalidOption "barrier"))).
Proof. repeat split. Qed.

(** [prioritize] asks [dfpRefresh.has] about the keys of [Options]: it raises
    at its first step on every state. *)
Lemma prioritize_throws (s : State) :
  prioritize s = (s, inl (DFPRefreshError (InvalidOption "REFRESH"))).
Proof. reflexivity. Qed.

(** C1: the claim has [prioritize] enable the installed mechanisms of maximal
    weight and disable the others; on every state the code raises instead,
    and leaves every flag and every timer as it was. *)
Theorem prioritize_raises (s : State) :
  let r := prioritize s in
  snd r = inl (DFPRefreshError (InvalidOption "REFRESH")) /\
  isEnabled (fst r) = isEnabled s /\
  timers (fst r) = timers s /\
  intervals (fst r) = intervals s.
Proof. cbv zeta. rewrite prioritize_throws. repeat split. Qed.

(** [setPriority] writes the weight and does not call [prioritize]: flags and
    timers stay as they were. *)
Lemma setPriority_keeps_flags (opt : string) (weight : value) (s : State) :
  let s' := fst (dfpRefresh_setPriority opt weight s) in
  isEnabled s' = isEnabled s /\ timers s' = timers s /\ intervals s' = intervals s.
Proof.
  unfold dfpRefresh_setPriority, ensureValidOption, ensureValidPriority, bind.
  destruct (negb (js_in opt Options)); cbn; [auto|].
  destruct weight as [| |b|n|str| |]; cbn; auto.
Qed.

(** A weight set under a key that passes the check is never the weight read
    for a mechanism. *)
Example setPriority_key :
  let s := declare dfpRefreshProvider in
  snd (dfpRefresh_setPriority "barrier" (VNumber (Num 5)) s)
    = inl (DFPRefreshError (InvalidOption "barrier")) /\
  let s' := fst (dfpRefresh_setPriority "BARRIER" (VNumber (Num 5)) s) in
  priority (self s') !! "BARRIER" = Some (Num 5) /\
  priority (self s') !! "barrier" = Some (Num 1).
Proof. vm_compute. repeat split. Qed.

(** After [setBufferBarrier(3)] on the default configuration the barrier is
    installed with the maximal weight and is not enabled. *)
Example setBufferBarrier_not_enabled :
  let r := dfpRefresh_setBufferBarrier (Num 3) None (declare dfpRefreshProvider) in
  snd r = inl (DFPRefreshError (InvalidOption "REFRESH")) /\
  bufferBarrier (self (fst r)) = Some (Num 3) /\
  oneShotBarrier (self (fst r)) = true /\
  priority (self (fst r)) !! "barrier" = Some (Num 1) /\
  en_barrier (isEnabled (fst r)) = false.
Proof. vm_compute. repeat split. Qed.

(** C3: the claim has [isBuffering] answer without error; the code raises on
    every state, because its first question is [isEnabled('barrier')]. *)
Theorem isBuffering_raises (s : State) :
  dfpRefresh_isBuffering s = (s, inl (DFPRefreshError (InvalidOption "barrier"))).
Proof. reflexivity. Qed.

(** C6: the claim has a request without interval dispatched at once as a
    batch of one; the code raises in [scheduleRefresh] and dispatches
    nothing, whatever the state. *)
Theorem dfpRefresh_without_interval_raises
    (parseDuration : value -> error + jsnum) (sl : Slot) (s : State) :
  let r := dfpRefresh parseDuration sl VUndefined s in
  snd r = inl (DFPRefreshError (InvalidOption "barrier")) /\
  trace (fst r) = trace s /\
  buffer (fst r) = buffer s.
Proof. repeat split. Qed.

(** ** Dispatch *)

(** On a buffer of tasks the filter of [refresh] keeps those with a slot. *)
Lemma filter_slots_tasks (tasks : list Task) (s : State) :
  filter_slots (map Some tasks) s = (s, inr (List.filter has_slot tasks)).
Proof.
  induction tasks as [|t tasks IH]; [reflexivity|].
  cbn [map filter_slots List.filter]. unfold bind. rewrite IH.
  unfold has_slot. destruct (slot_not_null (slot t)); reflexivity.
Qed.

(** On a buffer with a [null] entry it raises. *)
Lemma filter_slots_null (b : list (option Task)) (s : State) :
  In None b -> filter_slots b s = (s, inl (TypeError SlotOfNull)).
Proof.
  induction b as [|entry b IH]; intros Hin; [destruct Hin|].
  destruct entry as [t|]; [|reflexivity].
  destruct Hin as [Heq|Hin]; [discriminate|].
  cbn [filter_slots]. unfold bind. rewrite (IH Hin). reflexivity.
Qed.

Lemma refresh_tasks (tasks : list Task) (s : State) :
  tasks <> [] ->
  refresh (Some (map Some tasks)) s = (emit (cmd_push (List.filter has_slot tasks)) s, inr tt).
Proof.
  intros Hne. destruct tasks as [|t tasks]; [congruence|].
  unfold refresh, bind. cbn [not_null ret length map Nat.eqb].
  change (Some t :: map Some tasks) with (map Some (t :: tasks)).
  rewrite filter_slots_tasks. reflexivity.
Qed.

Lemma refresh_empty (s : State) : refresh (Some []) s = (s, inr tt).
Proof. reflexivity. Qed.

(** [refresh(buffer)] on a buffer that holds a [null]: a [TypeError], and
    nothing dispatched. *)
Lemma refresh_null (b : list (option Task)) (s : State) :
  In None b -> refresh (Some b) s = (s, inl (TypeError SlotOfNull)).
Proof.
  intros Hin. unfold refresh, bind. cbn [not_null ret].
  destruct b as [|entry b]; [destruct Hin|].
  cbn [length Nat.eqb]. rewrite (filter_slots_null _ _ Hin). reflexivity.
Qed.

(** [refresh()] dispatches everything and then raises on [tasks.length]. *)
Lemma refresh_all (s : State) :
  refresh None s = (emit pubads_refresh_all s, inl (TypeError LengthOfUndefined)).
Proof. reflexivity. Qed.

Lemma fill_null_length (b : list (option Task)) : length (fill_null b) = length b.
Proof. unfold fill_null. apply length_map. Qed.

Lemma fill_null_all (b : list (option Task)) : Forall (fun entry => entry = None) (fill_null b).
Proof. induction b as [|e b IH]; cbn; constructor; auto. Qed.

(** C5: a tick of the global refresh timer calls [pubads().refresh()] without
    argument and overwrites every buffer entry with [null]; the buffer keeps
    its length. *)
Theorem refresh_tick_keeps_length (s : State) :
  let s' := fst (run_callback refresh_task s) in
  trace s' = (trace s ++ [pubads_refresh_all])%list /\
  buffer s' = fill_null (buffer s) /\
  Forall (fun entry => entry = None) (buffer s') /\
  length (buffer s') = length (buffer s).
Proof.
  cbn. repeat split.
  - apply fill_null_all.
  - apply fill_null_length.
Qed.

(** The same tick ends in the [TypeError] of [refresh()]; configuration,
    flags and timers are untouched. *)
Lemma refresh_tick_outcome (s : State) :
  let r := run_callback refresh_task s in
  snd r = inl (TypeError LengthOfUndefined) /\
  self (fst r) = self s /\ isEnabled (fst r) = isEnabled s /\ timers (fst r) = timers s.
Proof. repeat split. Qed.

(** C4, as amended: a tick of the buffer-flush timer on a buffer that holds
    tasks only queues one command for the tasks that have a slot (none when
    the buffer is empty); run, the command refreshes their slots and resolves
    their deferreds.  The tick then overwrites every entry with [null]: the
    buffer keeps its length. *)
Theorem buffer_tick_keeps_length (s : State) (tasks : list Task) :
  buffer s = map Some tasks ->
  let r := run_callback buffer_task s in
  let batch := List.filter has_slot tasks in
  snd r = inr tt /\
  trace (fst r) = (trace s ++ match tasks with [] => [] | _ => [cmd_push batch] end)%list /\
  run_command batch
    = pubads_refresh (map slot batch) :: map (fun t => deferred_resolve (deferred t)) batch /\
  buffer (fst r) = fill_null (buffer s) /\
  Forall (fun entry => entry = None) (buffer (fst r)) /\
  length (buffer (fst r)) = length (buffer s).
Proof.
  intros Hb r batch. subst r.
  unfold run_callback, bind, gets. rewrite Hb.
  destruct tasks as [|t tasks].
  - cbn. rewrite Hb. cbn. rewrite app_nil_r. repeat split. constructor.
  - rewrite refresh_tasks by discriminate.
    cbn. rewrite Hb. repeat split.
    + apply (fill_null_all (map Some (t :: tasks))).
    + apply (fill_null_length (map Some (t :: tasks))).
Qed.

Lemma buffer_tick_keeps_length_witness :
  let s := set_buffer [Some task_A; Some task_B] (declare dfpRefreshProvider) in
  buffer s = map Some [task_A; task_B] /\
  let r := run_callback buffer_task s in
  let batch := List.filter has_slot [task_A; task_B] in
  snd r = inr tt /\
  trace (fst r) = (trace s ++ [cmd_push batch])%list /\
  run_command batch
    = pubads_refresh (map slot batch) :: map (fun t => deferred_resolve (deferred t)) batch /\
  buffer (fst r) = fill_null (buffer s) /\
  Forall (fun entry => entry = None) (buffer (fst r)) /\
  length (buffer (fst r)) = length (buffer s).
Proof.
  split; [reflexivity|].
  apply (buffer_tick_keeps_length
           (set_buffer [Some task_A; Some task_B] (declare dfpRefreshProvider))
           [task_A; task_B]).
  reflexivity.
Defined.

(** C4, as stated, fails: after a tick on a buffer of one task the buffer
    still has one entry. *)
Lemma buffer_tick_not_emptied :
  let s := set_buffer [Some task_A] (declare dfpRefreshProvider) in
  let s' := fst (run_callback buffer_task s) in
  buffer s' = [None] /\ length (buffer s') = 1%nat /\ buffer s' <> [].
Proof. cbn. repeat split. discriminate. Qed.

(** A second tick finds the [null] left by the first and raises. *)
Example buffer_tick_twice :
  let s := set_buffer [Some task_A] (declare dfpRefreshProvider) in
  let s1 := fst (run_callback buffer_task s) in
  run_callback buffer_task s1 = (s1, inl (TypeError SlotOfNull)).
Proof. reflexivity. Qed.

(** ** The barrier *)

(** [setBufferBarrier] stores the count and the one-shot flag, [true] when
    the argument is left out, before it calls [prioritize]. *)
Lemma setBufferBarrier_stores (n : jsnum) (oneShot : option bool) (s : State) :
  let s' := fst (dfpRefresh_setBufferBarrier n oneShot s) in
  bufferBarrier (self s') = Some n /\
  oneShotBarrier (self s') = match oneShot with None => true | Some b => b end.
Proof. split; reflexivity. Qed.

(** [flushBuffer] on a buffer of tasks: one command, then an empty buffer. *)
Lemma flushBuffer_tasks (s : State) (tasks : list Task) :
  buffer s = map Some tasks -> tasks <> [] ->
  flushBuffer s = (set_buffer [] (emit (cmd_push (List.filter has_slot tasks)) s), inr tt).
Proof.
  intros Hb Hne. unfold flushBuffer, bind, gets, modify.
  rewrite Hb, refresh_tasks by assumption. reflexivity.
Qed.

(** [clearBufferBarrier] unsets an installed barrier, then [prioritize] raises. *)
Lemma clearBufferBarrier_installed (s : State) (n : jsnum) :
  bufferBarrier (self s) = Some n ->
  dfpRefresh_clearBufferBarrier s
  = (set_self (with_bufferBarrier None) s, inl (DFPRefreshError (InvalidOption "REFRESH"))).
Proof.
  intros Hn.
  unfold dfpRefresh_clearBufferBarrier, dfpRefresh_hasBufferBarrier, bind, gets, modify.
  rewrite Hn. cbn [not_null negb]. rewrite prioritize_throws. reflexivity.
Qed.

(** On a buffer that holds tasks only, the request that brings the buffer to
    the barrier count queues one command for all of them and empties the
    buffer.  A one-shot barrier is then uninstalled, and the [prioritize]
    called for it raises; another barrier stays installed. *)
Lemma bufferRefresh_barrier_reached (s : State) (tasks : list Task) (task : Task) :
  buffer s = map Some tasks ->
  en_barrier (isEnabled s) = true ->
  bufferBarrier (self s) = Some (Num (Z.of_nat (S (length tasks)))) ->
  let r := bufferRefresh task s in
  trace (fst r) = (trace s ++ [cmd_push (List.filter has_slot (tasks ++ [task]))])%list /\
  buffer (fst r) = [] /\
  if oneShotBarrier (self s)
  then bufferBarrier (self (fst r)) = None /\
       snd r = inl (DFPRefreshError (InvalidOption "REFRESH"))
  else bufferBarrier (self (fst r)) = bufferBarrier (self s) /\ snd r = inr tt.
Proof.
  intros Hb Hon Hn.
  set (s1 := set_buffer (map Some (tasks ++ [task])) s).
  assert (Hflush : flushBuffer s1
                   = (set_buffer [] (emit (cmd_push (List.filter has_slot (tasks ++ [task]))) s1),
                      inr tt)).
  { apply flushBuffer_tasks; [reflexivity | destruct tasks; discriminate]. }
  assert (Hstep : bufferRefresh task s
                  = (let (s', x) := flushBuffer s1 in
                     match x with
                     | inl e => (s', inl e)
                     | inr _ => (if oneShotBarrier (self s')
                                 then dfpRefresh_clearBufferBarrier else ret tt) s'
                     end)).
  { unfold bufferRefresh, bind, modify, gets.
    rewrite Hb.
    replace (map Some tasks ++ [Some task]) with (map Some (tasks ++ [task]))
      by (rewrite map_app; reflexivity).
    fold s1.
    replace (isEnabled_get Options_BARRIER (isEnabled s1)) with (VBool true)
      by (change (isEnabled s1) with (isEnabled s); cbn; now rewrite Hon).
    cbn [truthy negb].
    change (bufferBarrier (self s1)) with (bufferBarrier (self s)). rewrite Hn.
    change (buffer s1) with (map Some (tasks ++ [task])).
    rewrite length_map, length_app, Nat.add_1_r.
    cbn [strict_eq]. rewrite Z.eqb_refl. reflexivity. }
  intros r. subst r. rewrite Hstep, Hflush.
  change (oneShotBarrier (self (set_buffer [] (emit (cmd_push (List.filter has_slot (tasks ++ [task]))) s1))))
    with (oneShotBarrier (self s)).
  destruct (oneShotBarrier (self s)).
  - rewrite (clearBufferBarrier_installed _ (Num (Z.of_nat (S (length tasks))))) by exact Hn.
    repeat split.
  - repeat split.
Qed.

(** With [oneShot = false] the barrier flushes again and again. *)
Example barrier_persistent :
  let s0 := barrier_state 2 false [] in
  let s1 := fst (bufferRefresh task_A s0) in
  let s2 := fst (bufferRefresh task_B s1) in
  let s3 := fst (bufferRefresh task_A s2) in
  let s4 := fst (bufferRefresh task_B s3) in
  trace s1 = [] /\
  trace s2 = [cmd_push [task_A; task_B]] /\ buffer s2 = [] /\
  trace s4 = [cmd_push [task_A; task_B]; cmd_push [task_A; task_B]] /\ buffer s4 = [] /\
  bufferBarrier (self s4) = Some (Num 2).
Proof. vm_compute. repeat split. Qed.

(** C2: the claim has the request that reaches the barrier count dispatch the
    buffered tasks that are not [null] and empty the buffer.  With a [null]
    left in the buffer by a timer, the code raises, dispatches nothing and
    keeps the buffer and the barrier. *)
Theorem bufferRefresh_null_entry_raises :
  let s := barrier_state 2 true [None] in
  let r := bufferRefresh task_A s in
  en_barrier (isEnabled s) = true /\
  bufferBarrier (self s) = Some (Num (Z.of_nat (length (buffer (fst r))))) /\
  snd r = inl (TypeError SlotOfNull) /\
  trace (fst r) = trace s /\
  buffer (fst r) = [None; Some task_A] /\
  bufferBarrier (self (fst r)) = Some (Num 2).
Proof. vm_compute. repeat split. Qed.

(** The way to such a buffer: one buffered task, then a tick of the global
    refresh timer. *)
Example null_entry_reached :
  let s0 := barrier_state 2 true [] in
  let s1 := fst (bufferRefresh task_B s0) in
  let s2 := fst (run_callback refresh_task s1) in
  buffer s2 = [None] /\
  snd (bufferRefresh task_A s2) = inl (TypeError SlotOfNull).
Proof. vm_compute. repeat split. Qed.

(** Through the public entry point no request is ever buffered: with only a
    barrier of three configured, three requests dispatch nothing. *)
Example barrier_three_requests (parseDuration : value -> error + jsnum) :
  let p := with_refreshInterval None (with_bufferInterval None dfpRefreshProvider) in
  let s0 := fst (dfpRefresh_setBufferBarrier (Num 3) None (declare p)) in
  let s1 := fst (dfpRefresh parseDuration (SlotObj 1 "A") VUndefined s0) in
  let s2 := fst (dfpRefresh parseDuration (SlotObj 2 "B") VUndefined s1) in
  let r3 := dfpRefresh parseDuration (SlotObj 3 "C") VUndefined s2 in
  snd r3 = inl (DFPRefreshError (InvalidOption "barrier")) /\
  trace (fst r3) = [] /\ buffer (fst r3) = [].
Proof. repeat split. Qed.

(** ** The per-slot intervals *)

(** [hasSlotInterval] looks into [self.intervals], which does not exist:
    [cancelInterval] raises a [TypeError] for every slot and every state,
    and cancels nothing. *)
Lemma cancelInterval_raises (sl : Slot) (s : State) :
  dfpRefresh_cancelInterval sl s = (s, inl (TypeError InOfUndefined)).
Proof. reflexivity. Qed.

(** C7, as amended: a request with an interval that parses succeeds whether
    or not the slot has a registered interval; it starts a new timer and
    stores its handle under the key of the slot, in the place of the handle
    registered before. *)
Theorem dfpRefresh_interval_replaces
    (parseDuration : value -> error + jsnum)
    (s : State) (sl : Slot) (interval : value) (ms : jsnum) :
  interval <> VUndefined ->
  typeof interval <> "function" ->
  parseDuration interval = inr ms ->
  let r := dfpRefresh parseDuration sl interval s in
  let task := {| slot := sl; deferred := next_deferred s |} in
  snd r = inr (next_deferred s) /\
  intervals (fst r) = <[slot_key sl := Some (next_timer s)]> (intervals s) /\
  intervals (fst r) !! slot_key sl = Some (Some (next_timer s)) /\
  timers (fst r)
    = <[next_timer s := {| timer_fn := slot_task task; timer_delay := Some ms |}]> (timers s).
Proof.
  intros Hundef Hfun Hparse r task. subst r task.
  assert (Hrun : dfpRefresh parseDuration sl interval s
                 = (let* d := Promise_defer in
                    addSlotInterval parseDuration {| slot := sl; deferred := d |} interval ;;
                    ret d) s).
  { unfold dfpRefresh. destruct interval; cbn in Hfun; try reflexivity; congruence. }
  rewrite Hrun.
  unfold addSlotInterval, Promise_defer, interval_start, bind, gets, modify, ret.
  rewrite Hparse. cbn.
  repeat split. apply lookup_insert_eq.
Qed.

Lemma dfpRefresh_interval_replaces_witness :
  let parse := Duration.dfpParseDuration in
  let sl := SlotObj 1 "A" in
  let s := fst (dfpRefresh parse sl (VString "2s") (declare dfpRefreshProvider)) in
  (VString "5s" <> VUndefined /\ typeof (VString "5s") <> "function" /\
   parse (VString "5s") = inr (Num 5000) /\
   intervals s !! slot_key sl = Some (Some 0%nat)) /\
  let r := dfpRefresh parse sl (VString "5s") s in
  let task := {| slot := sl; deferred := next_deferred s |} in
  snd r = inr (next_deferred s) /\
  intervals (fst r) = <[slot_key sl := Some (next_timer s)]> (intervals s) /\
  intervals (fst r) !! slot_key sl = Some (Some (next_timer s)) /\
  timers (fst r)
    = <[next_timer s := {| timer_fn := slot_task task; timer_delay := Some (Num 5000) |}]> (timers s).
Proof.
  split.
  - repeat split; try discriminate; vm_compute; reflexivity.
  - apply (dfpRefresh_interval_replaces Duration.dfpParseDuration
             (fst (dfpRefresh Duration.dfpParseDuration (SlotObj 1 "A") (VString "2s")
                     (declare dfpRefreshProvider)))
             (SlotObj 1 "A") (VString "5s") (Num 5000)).
    + discriminate.
    + discriminate.
    + vm_compute; reflexivity.
Defined.

(** C7, as stated, fails: a second request with an interval for a slot that
    has one registered returns its promise, and both timers go on running. *)
Lemma duplicate_interval_accepted :
  let parse := Duration.dfpParseDuration in
  let sl := SlotObj 1 "A" in
  let s1 := fst (dfpRefresh parse sl (VString "2s") (declare dfpRefreshProvider)) in
  let r2 := dfpRefresh parse sl (VString "5s") s1 in
  intervals s1 !! slot_key sl = Some (Some 0%nat) /\
  snd r2 = inr 1%nat /\
  (forall e, snd r2 <> inl e) /\
  timers (fst r2) !! 0%nat
    = Some {| timer_fn := slot_task {| slot := sl; deferred := 0 |};
              timer_delay := Some (Num 2000) |} /\
  timers (fst r2) !! 1%nat
    = Some {| timer_fn := slot_task {| slot := sl; deferred := 1 |};
              timer_delay := Some (Num 5000) |}.
Proof.
  cbv zeta. repeat split; try (vm_compute; reflexivity).
  intros e. vm_compute. discriminate.
Qed.

(** ** Clearing *)

(** Clearing an unset buffer interval or barrier is a warning and nothing
    else. *)
Lemma clearBufferInterval_unset (s : State) :
  bufferInterval (self s) = None ->
  dfpRefresh_clearBufferInterval s
  = (emit (console_warn "clearBufferInterval had no effect because no interval was set.") s,
     inr tt).
Proof.
  intros H. unfold dfpRefresh_clearBufferInterval, dfpRefresh_hasBufferInterval, bind, gets.
  rewrite H. reflexivity.
Qed.

Lemma clearBufferBarrier_unset (s : State) :
  bufferBarrier (self s) = None ->
  dfpRefresh_clearBufferBarrier s
  = (emit (console_warn "clearBufferBarrier had not effect because no barrier was set.") s,
     inr tt).
Proof.
  intros H. unfold dfpRefresh_clearBufferBarrier, dfpRefresh_hasBufferBarrier, bind, gets.
  rewrite H. reflexivity.
Qed.

(** [clearRefreshInterval] goes on after its warning and ends in
    [prioritize]: it raises on every state, and never unsets
    [self.refreshInterval]. *)
Lemma clearRefreshInterval_raises (s : State) :
  let r := dfpRefresh_clearRefreshInterval s in
  snd r = inl (DFPRefreshError (InvalidOption "REFRESH")) /\
  refreshInterval (self (fst r)) = refreshInterval (self s).
Proof.
  unfold dfpRefresh_clearRefreshInterval, dfpRefresh_hasRefreshInterval,
    disableRefreshInterval, bind, gets, modify.
  destruct (refreshInterval (self s)) eqn:Hset; cbn;
    destruct (en_refresh (isEnabled s)); cbn;
    try destruct (mjoin (intervals s !! "refresh")); cbn; auto.
Qed.

(** When the flag is set and the handle of the running timer is the one in
    [intervals.refresh], clearing stops that timer: it fires no more. *)
Lemma clearRefreshInterval_cancels (s : State) (h : nat) :
  en_refresh (isEnabled s) = true ->
  intervals s !! "refresh" = Some (Some h) ->
  let s' := fst (dfpRefresh_clearRefreshInterval s) in
  timers s' = delete h (timers s) /\
  fire h s' = (s', inr tt).
Proof.
  intros Hon Hh.
  assert (Ht : timers (fst (dfpRefresh_clearRefreshInterval s)) = delete h (timers s)).
  { unfold dfpRefresh_clearRefreshInterval, dfpRefresh_hasRefreshInterval,
      disableRefreshInterval, bind, gets, modify.
    destruct (refreshInterval (self s)); cbn; rewrite Hon; cbn; rewrite Hh; reflexivity. }
  split; [exact Ht|].
  unfold fire, bind, gets. rewrite Ht, lookup_delete_eq. reflexivity.
Qed.

(** C8: the claim has a clear operation on an unset mechanism warn and do
    nothing more; [clearRefreshInterval] with no refresh interval set warns
    and then raises. *)
Theorem clearRefreshInterval_unset_raises :
  let s := declare (with_refreshInterval None dfpRefreshProvider) in
  snd (dfpRefresh_hasRefreshInterval s) = inr false /\
  dfpRefresh_clearRefreshInterval s
  = (emit (console_warn "clearRefreshInterval had no effect because no refresh interval was set.") s,
     inl (DFPRefreshError (InvalidOption "REFRESH"))).
Proof. split; reflexivity. Qed.

(** [setRefreshInterval] starts a timer each time and keeps the last handle
    only: after two calls, clearing stops the second timer and the first one
    still sweeps. *)
Example refresh_timer_survives_clear :
  let parse := Duration.dfpParseDuration in
  let s1 := fst (dfpRefresh_setRefreshInterval parse (VString "1h") (declare dfpRefreshProvider)) in
  let s2 := fst (dfpRefresh_setRefreshInterval parse (VString "2h") s1) in
  let s3 := fst (dfpRefresh_clearRefreshInterval s2) in
  timers s3 !! 1%nat = None /\
  timers s3 !! 0%nat
    = Some {| timer_fn := refresh_task; timer_delay := Some (Num 3600000) |} /\
  trace (fst (fire 0 s3)) = [pubads_refresh_all].
Proof. vm_compute. repeat split. Qed.

(** ** Construction *)

(** C10: with the provider's defaults, the state [$get] builds has the buffer
    interval 1000 and the refresh interval 3600000, both installed and both
    marked enabled, the barrier not: not a state where nothing is set. *)
Theorem initial_state_defaults :
  let s := fst (get_service dfpRefreshProvider) in
  bufferInterval (self s) = Some (Num 1000) /\
  refreshInterval (self s) = Some (Num 3600000) /\
  snd (dfpRefresh_hasBufferInterval s) = inr true /\
  snd (dfpRefresh_hasRefreshInterval s) = inr true /\
  snd (dfpRefresh_bufferIntervalIsEnabled s) = inr true /\
  snd (dfpRefresh_refreshIntervalIsEnabled s) = inr true /\
  isEnabled s = {| en_refresh := true; en_interval := true; en_barrier := false |} /\
  isEnabled s <> {| en_refresh := false; en_interval := false; en_barrier := false |}.
Proof.
  unfold get_service. rewrite prioritize_throws. cbn.
  repeat split. discriminate.
Qed.

(** [$get] itself ends in the error of [prioritize], with no timer started. *)
Lemma get_service_raises (p : Provider) :
  get_service p = (declare p, inl (DFPRefreshError (InvalidOption "REFRESH"))) /\
  timers (declare p) = ∅.
Proof. split; reflexivity. Qed.

(** * Further properties *)

(** ** The duration parser on arbitrary strings *)

Lemma regex_match_None (s : string) :
  Duration.regex_match s = None <->
  existsb Duration.is_digit (list_ascii_of_string s) = false.
Proof.
  induction s as [|c s IH]; cbn [Duration.regex_match list_ascii_of_string existsb].
  - split; reflexivity.
  - destruct (Duration.is_digit c) eqn:Hc; cbn [orb].
    + destruct (Duration.span_digits (String c s)). split; discriminate.
    + exact IH.
Qed.

(** X1: a string is accepted exactly when it holds a digit somewhere; a
    string without digit is the format error carrying that string. *)
Theorem dfpParseDuration_accepts_any_digit (s : string) :
  if existsb Duration.is_digit (list_ascii_of_string s)
  then exists z, Duration.dfpParseDuration (VString s) = inr (Num z)
  else Duration.dfpParseDuration (VString s) = inl (DFPDurationError s).
Proof.
  unfold Duration.dfpParseDuration.
  destruct (existsb Duration.is_digit (list_ascii_of_string s)) eqn:Hd.
  - destruct (Duration.regex_match s) as [m|] eqn:Hm; [eauto|].
    apply regex_match_None in Hm. congruence.
  - apply regex_match_None in Hd. now rewrite Hd.
Qed.

(** What stands before the first digit plays no part in the match. *)
Lemma regex_match_skips (pre s : string) :
  existsb Duration.is_digit (list_ascii_of_string pre) = false ->
  Duration.regex_match (pre +:+ s) = Duration.regex_match s.
Proof.
  induction pre as [|c pre IH]; intros Hpre; [reflexivity|].
  cbn [list_ascii_of_string existsb] in Hpre.
  apply orb_false_iff in Hpre as [Hc Hpre].
  change (String c pre +:+ s) with (String c (pre +:+ s)).
  cbn [Duration.regex_match]. rewrite Hc. exact (IH Hpre).
Qed.

(** X2: text before the first digit is ignored, a minus sign included. *)
Theorem dfpParseDuration_ignores_prefix (pre s : string) :
  existsb Duration.is_digit (list_ascii_of_string pre) = false ->
  existsb Duration.is_digit (list_ascii_of_string s) = true ->
  Duration.dfpParseDuration (VString (pre +:+ s)) = Duration.dfpParseDuration (VString s).
Proof.
  intros Hpre Hs. unfold Duration.dfpParseDuration.
  rewrite (regex_match_skips pre s Hpre).
  destruct (Duration.regex_match s) eqn:Hm; [reflexivity|].
  apply regex_match_None in Hm. congruence.
Qed.

Lemma dfpParseDuration_ignores_prefix_witness :
  (existsb Duration.is_digit (list_ascii_of_string "about -") = false /\
   existsb Duration.is_digit (list_ascii_of_string "5s") = true) /\
  Duration.dfpParseDuration (VString ("about -" +:+ "5s"))
  = Duration.dfpParseDuration (VString "5s").
Proof.
  split; [split; reflexivity|].
  apply (dfpParseDuration_ignores_prefix "about -" "5s"); reflexivity.
Defined.








Lemma digit_value_nonneg (c : ascii) : Duration.is_digit c = true -> 0 <= Duration.digit_value c.
Proof.
  unfold Duration.is_digit, Duration.digit_value. intros H.
  apply andb_true_iff in H as [H _]. apply Nat.leb_le in H. lia.
Qed.

Lemma parseInt_nonneg (ds : string) :
  forallb Duration.is_digit (list_ascii_of_string ds) = true -> 0 <= Duration.parseInt ds.
Proof.
  assert (Hgen : forall l acc, 0 <= acc -> forallb Duration.is_digit l = true ->
                   0 <= fold_left (fun a c => 10 * a + Duration.digit_value c) l acc).
  { induction l as [|c l IH]; intros a Ha Hl; [exact Ha|].
    cbn [forallb] in Hl. apply andb_true_iff in Hl as [Hc Hl].
    cbn [fold_left]. apply IH; [|exact Hl].
    pose proof (digit_value_nonneg c Hc). lia. }
  intros Hds. unfold Duration.parseInt. apply Hgen; [lia | exact Hds].
Qed.

Lemma span_digits_digits (s : string) :
  forallb Duration.is_digit (list_ascii_of_string (fst (Duration.span_digits s))) = true.
Proof.
  induction s as [|c s IH]; [reflexivity|].
  cbn [Duration.span_digits]. destruct (Duration.is_digit c) eqn:Hc; [|reflexivity].
  destruct (Duration.span_digits s) as [ds rest]. cbn in *. now rewrite Hc, IH.
Qed.

(** X5: a string never parses to a negative duration, nor to [NaN]. *)
Theorem dfpParseDuration_string_nonneg (s : string) (n : jsnum) :
  Duration.dfpParseDuration (VString s) = inr n ->
  exists z, n = Num z /\ 0 <= z.
Proof.
  unfold Duration.dfpParseDuration.
  destruct (Duration.regex_match s) as [m|] eqn:Hm; [|discriminate].
  intros [= <-]. eexists; split; [reflexivity|].
  assert (Hshape : exists w ds u,
             m = [Some w; Some ds; u] /\
             forallb Duration.is_digit (list_ascii_of_string ds) = true).
  { clear -Hm. induction s as [|c s IH]; [discriminate|].
    cbn [Duration.regex_match] in Hm. destruct (Duration.is_digit c); [|auto].
    pose proof (span_digits_digits (String c s)) as Hd.
    destruct (Duration.span_digits (String c s)) as [ds rest].
    injection Hm as <-. eauto. }
  destruct Hshape as (w & ds & u & -> & Hds).
  change (Duration.convert [Some w; Some ds; u])
    with (Duration.convertToMilliseconds (Duration.parseInt ds) u).
  pose proof (parseInt_nonneg ds Hds).
  unfold Duration.convertToMilliseconds. repeat case_bool_decide; lia.
Qed.

Lemma dfpParseDuration_string_nonneg_witness :
  Duration.dfpParseDuration (VString "-5s") = inr (Num 5000) /\
  exists z, Num 5000 = Num z /\ 0 <= z.
Proof.
  split; [reflexivity|].
  apply (dfpParseDuration_string_nonneg "-5s" (Num 5000)). reflexivity.
Defined.

(** ** The option names of the engine *)

Lemma js_in_Options (opt : string) :
  js_in opt Options = true -> In opt (Object_keys Options ++ Object_prototype).
Proof.
  unfold js_in, streq. intros H.
  apply existsb_exists in H as (x & Hin & Heq).
  apply String.eqb_eq in Heq. now subst.
Qed.

Ltac each_name H :=
  cbn in H;
  repeat (destruct H as [<-|H]); [..|destruct H].

(** [dfpRefresh.has] answers for the three names [refresh], [interval] and
    [barrier], with whether the setting is not [null], and raises "Invalid
    option" for every other string. *)
Lemma has_accepts_values_only (opt : string) (s : State) :
  (opt = "refresh" /\
   dfpRefresh_has opt s = (s, inr (not_null (refreshInterval (self s))))) \/
  (opt = "interval" /\
   dfpRefresh_has opt s = (s, inr (not_null (bufferInterval (self s))))) \/
  (opt = "barrier" /\
   dfpRefresh_has opt s = (s, inr (not_null (bufferBarrier (self s))))) \/
  (opt <> "refresh" /\ opt <> "interval" /\ opt <> "barrier" /\
   dfpRefresh_has opt s = (s, inl (DFPRefreshError (InvalidOption opt)))).
Proof.
  unfold dfpRefresh_has, streq, Options_REFRESH, Options_INTERVAL, Options_BARRIER.
  destruct (String.eqb_spec opt "refresh") as [->|H1]; [left; split; reflexivity|].
  destruct (String.eqb_spec opt "interval") as [->|H2]; [right; left; split; reflexivity|].
  destruct (String.eqb_spec opt "barrier") as [->|H3];
    [right; right; left; split; reflexivity|].
  right; right; right. repeat split; assumption.
Qed.

(** X6: no name is accepted on both sides: whatever the string, either
    [has] raises, or [isEnabled], [getPriority] and [setPriority] all raise
    "Invalid option" and change nothing. *)
Theorem option_names_disjoint (opt : string) (s : State) :
  dfpRefresh_has opt s = (s, inl (DFPRefreshError (InvalidOption opt))) \/
  (dfpRefresh_isEnabled opt s = (s, inl (DFPRefreshError (InvalidOption opt))) /\
   dfpRefresh_getPriority opt s = (s, inl (DFPRefreshError (InvalidOption opt))) /\
   forall weight,
     dfpRefresh_setPriority opt weight s = (s, inl (DFPRefreshError (InvalidOption opt)))).
Proof.
  destruct (has_accepts_values_only opt s) as [[-> _]|[[-> _]|[[-> _]|(_ & _ & _ & H)]]];
    [right | right | right | left; exact H];
    repeat split.
Qed.

(** X7: [isEnabled] never reports a flag: when it returns, the value is
    [undefined] or an inherited member, the same in every state. *)
Theorem isEnabled_never_a_flag (opt : string) (s : State) (v : value) :
  snd (dfpRefresh_isEnabled opt s) = inr v ->
  (v = VUndefined \/ v = VFunction \/ v = VObject) /\
  forall s', dfpRefresh_isEnabled opt s' = (s', inr v).
Proof.
  unfold dfpRefresh_isEnabled, ensureValidOption, bind, gets.
  destruct (js_in opt Options) eqn:Hin; cbn [negb]; [|discriminate].
  apply js_in_Options in Hin.
  each_name Hin; cbn; intros Hv; inversion Hv; subst; (split; [auto | reflexivity]).
Qed.

Lemma isEnabled_never_a_flag_witness :
  snd (dfpRefresh_isEnabled "BARRIER" (barrier_state 2 true [])) = inr VUndefined /\
  (VUndefined = VUndefined \/ VUndefined = VFunction \/ VUndefined = VObject) /\
  forall s', dfpRefresh_isEnabled "BARRIER" s' = (s', inr VUndefined).
Proof.
  split; [reflexivity|].
  apply (isEnabled_never_a_flag "BARRIER" (barrier_state 2 true []) VUndefined).
  reflexivity.
Defined.

(** ** Priorities *)

(** X8: a weight stored under a name [setPriority] accepts is the weight
    [getPriority] returns for that name, and no other entry changes. *)
Theorem setPriority_getPriority (opt : string) (n : jsnum) (s : State) :
  In opt ["REFRESH"; "INTERVAL"; "BARRIER"] ->
  let r := dfpRefresh_setPriority opt (VNumber n) s in
  snd r = inr tt /\
  snd (dfpRefresh_getPriority opt (fst r)) = inr (Some n) /\
  forall other, other <> opt ->
    priority (self (fst r)) !! other = priority (self s) !! other.
Proof.
  intros Hopt. cbv zeta.
  each_name Hopt;
    (split; [reflexivity|];
     split; [cbn; f_equal; apply lookup_insert_eq|];
     intros other Hne; cbn; now apply lookup_insert_ne).
Qed.

Lemma setPriority_getPriority_witness :
  let s := declare dfpRefreshProvider in
  In "BARRIER" ["REFRESH"; "INTERVAL"; "BARRIER"] /\
  let r := dfpRefresh_setPriority "BARRIER" (VNumber (Num 5)) s in
  snd r = inr tt /\
  snd (dfpRefresh_getPriority "BARRIER" (fst r)) = inr (Some (Num 5)) /\
  forall other, other <> "BARRIER" ->
    priority (self (fst r)) !! other = priority (self s) !! other.
Proof.
  split; [cbn; auto|].
  apply (setPriority_getPriority "BARRIER" (Num 5) (declare dfpRefreshProvider)).
  cbn; auto.
Defined.

(** X9: whatever its arguments, [setPriority] leaves the three weights
    [prioritize] reads, those of [refresh], [interval] and [barrier], and
    every flag and timer, as they were. *)
Theorem setPriority_never_reweights (opt : string) (weight : value) (s : State) :
  let s' := fst (dfpRefresh_setPriority opt weight s) in
  priority (self s') !! "refresh" = priority (self s) !! "refresh" /\
  priority (self s') !! "interval" = priority (self s) !! "interval" /\
  priority (self s') !! "barrier" = priority (self s) !! "barrier" /\
  isEnabled s' = isEnabled s /\ timers s' = timers s.
Proof.
  unfold dfpRefresh_setPriority, ensureValidOption, ensureValidPriority, bind.
  destruct (js_in opt Options) eqn:Hin; cbn [negb]; [|repeat split].
  destruct weight as [| |b|n|str| |]; cbn; try (repeat split; fail).
  apply js_in_Options in Hin.
  each_name Hin; repeat split; now apply lookup_insert_ne.
Qed.

(** X10: a weight that is not a number is refused: [setPriority] raises a
    [DFPRefreshError] and changes nothing. *)
Theorem setPriority_rejects_non_number (opt : string) (weight : value) (s : State) :
  typeof weight <> "number" ->
  fst (dfpRefresh_setPriority opt weight s) = s /\
  exists why, snd (dfpRefresh_setPriority opt weight s) = inl (DFPRefreshError why).
Proof.
  intros Hw.
  unfold dfpRefresh_setPriority, ensureValidOption, ensureValidPriority, bind.
  destruct (js_in opt Options); cbn [negb]; [|cbn; eauto].
  destruct weight as [| |b|n|str| |]; cbn in *; eauto. congruence.
Qed.

Lemma setPriority_rejects_non_number_witness :
  let s := declare dfpRefreshProvider in
  typeof (VString "5") <> "number" /\
  fst (dfpRefresh_setPriority "REFRESH" (VString "5") s) = s /\
  exists why,
    snd (dfpRefresh_setPriority "REFRESH" (VString "5") s) = inl (DFPRefreshError why).
Proof.
  split; [discriminate|].
  apply (setPriority_rejects_non_number "REFRESH" (VString "5") (declare dfpRefreshProvider)).
  discriminate.
Defined.

(** X11: the six priority shortcuts raise on every state and for every
    argument, and change nothing: the setters do not pass the weight on, and
    all six use the lower-case names. *)
Theorem priority_shortcuts_raise (weight : value) (s : State) :
  dfpRefresh_setRefreshPriority weight s
    = (s, inl (DFPRefreshError (InvalidOption "refresh"))) /\
  dfpRefresh_getRefreshPriority s
    = (s, inl (DFPRefreshError (InvalidOption "refresh"))) /\
  dfpRefresh_setBarrierPriority weight s
    = (s, inl (DFPRefreshError (InvalidOption "barrier"))) /\
  dfpRefresh_getBarrierPriority s
    = (s, inl (DFPRefreshError (InvalidOption "barrier"))) /\
  dfpRefresh_getIntervalPriority s
    = (s, inl (DFPRefreshError (InvalidOption "interval"))) /\
  dfpRefresh_setIntervalPriority weight s
    = (s, inl (DFPRefreshError
                 (if String.eqb (typeof weight) "number"
                  then InvalidOption "interval" else PriorityNotNumber weight))).
Proof. repeat split. destruct weight; reflexivity. Qed.

(** ** Enabling, disabling and clearing *)

(** X12: [disable] is idempotent, as its comments say: a second call for
    the same option changes nothing. *)
Theorem disable_idempotent (opt : string) (s : State) :
  let s1 := fst (disable opt s) in
  snd (disable opt s) = inr tt /\ disable opt s1 = (s1, inr tt).
Proof.
  unfold disable.
  destruct (streq opt Options_REFRESH).
  { unfold disableRefreshInterval, bind, gets, modify.
    destruct (en_refresh (isEnabled s)) eqn:Hon.
    - destruct (mjoin (intervals s !! "refresh")); cbn; split; reflexivity.
    - cbn. rewrite Hon. split; reflexivity. }
  destruct (streq opt Options_INTERVAL).
  { unfold disableBufferInterval, bind, gets, modify.
    destruct (en_interval (isEnabled s)) eqn:Hon.
    - destruct (mjoin (intervals s !! "buffer")); cbn; split; reflexivity.
    - cbn. rewrite Hon. split; reflexivity. }
  destruct (streq opt Options_BARRIER); split; reflexivity.
Qed.

(** X13: clearing an installed buffer interval stops the timer whose handle
    is in [intervals.buffer], unsets the interval and its flag, and then
    raises in [prioritize]; clearing once more is a warning and nothing
    else. *)
Theorem clearBufferInterval_then_again (s : State) (ms : jsnum) :
  bufferInterval (self s) = Some ms ->
  let r := dfpRefresh_clearBufferInterval s in
  bufferInterval (self (fst r)) = None /\
  en_interval (isEnabled (fst r)) = false /\
  (forall h, en_interval (isEnabled s) = true ->
             intervals s !! "buffer" = Some (Some h) ->
             timers (fst r) !! h = None) /\
  snd r = inl (DFPRefreshError (InvalidOption "REFRESH")) /\
  dfpRefresh_clearBufferInterval (fst r)
  = (emit (console_warn "clearBufferInterval had no effect because no interval was set.")
       (fst r), inr tt).
Proof.
  intros Hset r. subst r.
  unfold dfpRefresh_clearBufferInterval, dfpRefresh_hasBufferInterval,
    disableBufferInterval, bind, gets, modify.
  rewrite Hset. cbn [not_null negb].
  destruct (en_interval (isEnabled s)) eqn:Hon.
  - destruct (intervals s !! "buffer") as [[h0|]|] eqn:Hh; cbn;
      (repeat split; [intros h _ Heq; try discriminate]).
    injection Heq as <-. apply lookup_delete_eq.
  - cbn. rewrite Hon. repeat split. discriminate.
Qed.

Lemma clearBufferInterval_then_again_witness :
  let s := declare dfpRefreshProvider in
  bufferInterval (self s) = Some (Num 1000) /\
  let r := dfpRefresh_clearBufferInterval s in
  bufferInterval (self (fst r)) = None /\
  en_interval (isEnabled (fst r)) = false /\
  (forall h, en_interval (isEnabled s) = true ->
             intervals s !! "buffer" = Some (Some h) ->
             timers (fst r) !! h = None) /\
  snd r = inl (DFPRefreshError (InvalidOption "REFRESH")) /\
  dfpRefresh_clearBufferInterval (fst r)
  = (emit (console_warn "clearBufferInterval had no effect because no interval was set.")
       (fst r), inr tt).
Proof.
  split; [reflexivity|].
  apply (clearBufferInterval_then_again (declare dfpRefreshProvider) (Num 1000)).
  reflexivity.
Defined.

(** X14: [setRefreshInterval] with an interval that parses stores it,
    starts one new timer with that delay, puts its handle in
    [intervals.refresh] and sets the flag; every timer that was running
    goes on running; the call then raises in [prioritize]. *)
Theorem setRefreshInterval_starts_timer
    (parseDuration : value -> error + jsnum) (interval : value) (ms : jsnum) (s : State) :
  parseDuration interval = inr ms ->
  let r := dfpRefresh_setRefreshInterval parseDuration interval s in
  refreshInterval (self (fst r)) = Some ms /\
  timers (fst r)
    = <[next_timer s := {| timer_fn := refresh_task; timer_delay := Some ms |}]> (timers s) /\
  intervals (fst r) !! "refresh" = Some (Some (next_timer s)) /\
  en_refresh (isEnabled (fst r)) = true /\
  (forall h, h <> next_timer s -> timers (fst r) !! h = timers s !! h) /\
  snd r = inl (DFPRefreshError (InvalidOption "REFRESH")).
Proof.
  intros Hparse r. subst r.
  unfold dfpRefresh_setRefreshInterval. rewrite Hparse.
  unfold enableRefreshInterval, interval_start, bind, gets, modify, ret. cbn.
  repeat split.
  - apply lookup_insert_eq.
  - intros h Hne. now apply lookup_insert_ne.
Qed.

Lemma setRefreshInterval_starts_timer_witness :
  let s := declare dfpRefreshProvider in
  Duration.dfpParseDuration (VString "30min") = inr (Num 1800000) /\
  let r := dfpRefresh_setRefreshInterval Duration.dfpParseDuration (VString "30min") s in
  refreshInterval (self (fst r)) = Some (Num 1800000) /\
  timers (fst r)
    = <[next_timer s := {| timer_fn := refresh_task; timer_delay := Some (Num 1800000) |}]>
        (timers s) /\
  intervals (fst r) !! "refresh" = Some (Some (next_timer s)) /\
  en_refresh (isEnabled (fst r)) = true /\
  (forall h, h <> next_timer s -> timers (fst r) !! h = timers s !! h) /\
  snd r = inl (DFPRefreshError (InvalidOption "REFRESH")).
Proof.
  split; [vm_compute; reflexivity|].
  apply (setRefreshInterval_starts_timer Duration.dfpParseDuration (VString "30min")
           (Num 1800000) (declare dfpRefreshProvider)).
  vm_compute; reflexivity.
Defined.

(** X15: an interval string without a digit changes nothing: the two
    setters raise the parser's error on an untouched state, and a request
    with such an interval raises it too, with no timer started and nothing
    registered or dispatched. *)
Theorem invalid_interval_changes_nothing (str : string) (sl : Slot) (s : State) :
  existsb Duration.is_digit (list_ascii_of_string str) = false ->
  dfpRefresh_setBufferInterval Duration.dfpParseDuration (VString str) s
    = (s, inl (DFPDurationError str)) /\
  dfpRefresh_setRefreshInterval Duration.dfpParseDuration (VString str) s
    = (s, inl (DFPDurationError str)) /\
  let r := dfpRefresh Duration.dfpParseDuration sl (VString str) s in
  snd r = inl (DFPDurationError str) /\
  timers (fst r) = timers s /\ intervals (fst r) = intervals s /\
  trace (fst r) = trace s /\ buffer (fst r) = buffer s /\ self (fst r) = self s.
Proof.
  intros Hd.
  assert (Hp : Duration.dfpParseDuration (VString str) = inl (DFPDurationError str)).
  { unfold Duration.dfpParseDuration. apply regex_match_None in Hd. now rewrite Hd. }
  unfold dfpRefresh_setBufferInterval, dfpRefresh_setRefreshInterval.
  rewrite Hp. split; [reflexivity|]. split; [reflexivity|].
  unfold dfpRefresh, addSlotInterval, Promise_defer, bind, gets, modify, ret.
  cbn -[Duration.dfpParseDuration]. rewrite Hp. repeat split.
Qed.

Lemma invalid_interval_changes_nothing_witness :
  let s := declare dfpRefreshProvider in
  let sl := SlotObj 1 "A" in
  existsb Duration.is_digit (list_ascii_of_string "soon") = false /\
  dfpRefresh_setBufferInterval Duration.dfpParseDuration (VString "soon") s
    = (s, inl (DFPDurationError "soon")) /\
  dfpRefresh_setRefreshInterval Duration.dfpParseDuration (VString "soon") s
    = (s, inl (DFPDurationError "soon")) /\
  let r := dfpRefresh Duration.dfpParseDuration sl (VString "soon") s in
  snd r = inl (DFPDurationError "soon") /\
  timers (fst r) = timers s /\ intervals (fst r) = intervals s /\
  trace (fst r) = trace s /\ buffer (fst r) = buffer s /\ self (fst r) = self s.
Proof.
  split; [reflexivity|].
  apply (invalid_interval_changes_nothing "soon" (SlotObj 1 "A") (declare dfpRefreshProvider)).
  reflexivity.
Defined.

(** ** Buffering and dispatch *)

(** X16: while the barrier is disabled, or the request does not bring the
    buffer to the barrier count, [bufferRefresh] appends the task at the
    tail of the buffer and does nothing else. *)
Theorem bufferRefresh_appends (task : Task) (s : State) :
  en_barrier (isEnabled s) = false \/
  bufferBarrier (self s) <> Some (Num (Z.of_nat (S (length (buffer s))))) ->
  bufferRefresh task s = (set_buffer (buffer s ++ [Some task]) s, inr tt).
Proof.
  intros Hcase. unfold bufferRefresh, bind, modify, gets. cbn.
  destruct (en_barrier (isEnabled s)) eqn:Hon; cbn; [|reflexivity].
  destruct Hcase as [Hoff|Hne]; [discriminate|].
  rewrite length_app, Nat.add_1_r.
  destruct (bufferBarrier (self s)) as [[z|]|] eqn:Hb; cbn; try reflexivity.
  destruct (Z.eqb_spec (Z.of_nat (S (length (buffer s)))) z) as [<-|Hz]; [congruence|].
  reflexivity.
Qed.

Lemma bufferRefresh_appends_witness :
  let s := barrier_state 3 true [Some task_A] in
  (en_barrier (isEnabled s) = false \/
   bufferBarrier (self s) <> Some (Num (Z.of_nat (S (length (buffer s)))))) /\
  bufferRefresh task_B s = (set_buffer (buffer s ++ [Some task_B]) s, inr tt).
Proof.
  split; [right; discriminate|].
  apply (bufferRefresh_appends task_B (barrier_state 3 true [Some task_A])).
  right; discriminate.
Defined.

Lemma all_tasks (b : list (option Task)) :
  forallb not_null b = true -> b = map Some (omap id b).
Proof.
  induction b as [|[t|] b IH]; cbn; intros H; [reflexivity| |discriminate].
  f_equal. exact (IH H).
Qed.

Lemma some_null (b : list (option Task)) :
  forallb not_null b = false -> In None b.
Proof.
  induction b as [|[t|] b IH]; cbn; intros H; [discriminate| |auto].
  right. exact (IH H).
Qed.

(** X17: [refresh(tasks)] on an array does one of three things: nothing for
    an empty array; a [TypeError] and nothing else when an entry is [null];
    otherwise exactly one queued command, for the tasks whose slot is not
    [null], in their order. *)
Theorem refresh_cases (b : list (option Task)) (s : State) :
  refresh (Some b) s =
  match b with
  | [] => (s, inr tt)
  | _ =>
      if forallb not_null b
      then (emit (cmd_push (List.filter has_slot (omap id b))) s, inr tt)
      else (s, inl (TypeError SlotOfNull))
  end.
Proof.
  destruct b as [|e b]; [reflexivity|].
  destruct (forallb not_null (e :: b)) eqn:Hall.
  - rewrite (all_tasks _ Hall) at 1. apply refresh_tasks.
    destruct e; [discriminate | cbn in Hall; discriminate].
  - apply refresh_null. now apply some_null.
Qed.

(** X18: a recurring request does register its timer, but every tick of it
    raises in [scheduleRefresh] and dispatches nothing. *)
Theorem slot_interval_tick_raises
    (parseDuration : value -> error + jsnum)
    (sl : Slot) (interval : value) (ms : jsnum) (s : State) :
  interval <> VUndefined ->
  typeof interval <> "function" ->
  parseDuration interval = inr ms ->
  let s' := fst (dfpRefresh parseDuration sl interval s) in
  timers s' !! next_timer s
    = Some {| timer_fn := slot_task {| slot := sl; deferred := next_deferred s |};
              timer_delay := Some ms |} /\
  fire (next_timer s) s' = (s', inl (DFPRefreshError (InvalidOption "barrier"))).
Proof.
  intros Hundef Hfun Hparse s'.
  assert (Ht : timers s' !! next_timer s
               = Some {| timer_fn := slot_task {| slot := sl; deferred := next_deferred s |};
                         timer_delay := Some ms |}).
  { subst s'. unfold dfpRefresh.
    destruct interval; cbn in Hfun; try congruence;
      unfold addSlotInterval, Promise_defer, interval_start, bind, gets, modify, ret;
      cbn; rewrite Hparse; cbn; apply lookup_insert_eq. }
  split; [exact Ht|].
  unfold fire, bind, gets. rewrite Ht. reflexivity.
Qed.

Lemma slot_interval_tick_raises_witness :
  let s := declare dfpRefreshProvider in
  let sl := SlotObj 1 "A" in
  (VString "2s" <> VUndefined /\ typeof (VString "2s") <> "function" /\
   Duration.dfpParseDuration (VString "2s") = inr (Num 2000)) /\
  let s' := fst (dfpRefresh Duration.dfpParseDuration sl (VString "2s") s) in
  timers s' !! next_timer s
    = Some {| timer_fn := slot_task {| slot := sl; deferred := next_deferred s |};
              timer_delay := Some (Num 2000) |} /\
  fire (next_timer s) s' = (s', inl (DFPRefreshError (InvalidOption "barrier"))).
Proof.
  split; [repeat split; try discriminate; vm_compute; reflexivity|].
  apply (slot_interval_tick_raises Duration.dfpParseDuration (SlotObj 1 "A")
           (VString "2s") (Num 2000) (declare dfpRefreshProvider));
    try discriminate.
  vm_compute; reflexivity.
Defined.

(** ** [dfpFormat] *)

Lemma append_assoc (a b c : string) : (a +:+ b) +:+ c = a +:+ (b +:+ c).
Proof.
  induction a as [|x a IH]; [reflexivity|].
  change ((String x a +:+ b) +:+ c) with (String x ((a +:+ b) +:+ c)).
  change (String x a +:+ b +:+ c) with (String x (a +:+ b +:+ c)).
  now rewrite IH.
Qed.

Lemma append_length (a b : string) :
  String.length (a +:+ b) = (String.length a + String.length b)%nat.
Proof.
  induction a as [|x a IH]; [reflexivity|].
  change (String x a +:+ b) with (String x (a +:+ b)).
  cbn [String.length]. now rewrite IH.
Qed.

Lemma scan_skip (args : list string) (s : string) (k : nat) :
  Format.scan args k s = Format.scan args 0 (drop_chars k s).
Proof.
  revert k. induction s as [|c rest IH]; intros [|k]; try reflexivity.
  cbn [Format.scan drop_chars]. apply IH.
Qed.

Lemma span_digits_split (s ds rest : string) :
  Duration.span_digits s = (ds, rest) -> s = ds +:+ rest.
Proof.
  revert ds rest. induction s as [|c s IH]; intros ds rest; cbn [Duration.span_digits].
  - intros [= <- <-]. reflexivity.
  - destruct (Duration.is_digit c).
    + destruct (Duration.span_digits s) as [ds' rest'] eqn:Hs.
      intros [= <- <-]. change (String c ds' +:+ rest') with (String c (ds' +:+ rest')).
      f_equal. now apply IH.
    + intros [= <- <-]. reflexivity.
Qed.

Lemma drop_chars_app (ds rest : string) :
  drop_chars (String.length ds) (ds +:+ rest) = rest.
Proof. induction ds as [|c ds IH]; [reflexivity | exact IH]. Qed.

Lemma drop_placeholder (ds post : string) :
  drop_chars (String.length ds + 1) (ds +:+ "}" +:+ post) = post.
Proof.
  rewrite <- append_assoc.
  replace (String.length ds + 1)%nat with (String.length (ds +:+ "}"))
    by (rewrite append_length; reflexivity).
  apply drop_chars_app.
Qed.

Lemma placeholder_shape (s ds : string) :
  Format.placeholder s = Some ds ->
  exists rest, s = ds +:+ String "}" rest /\
               forallb Duration.is_digit (list_ascii_of_string ds) = true.
Proof.
  unfold Format.placeholder.
  pose proof (span_digits_digits s) as Hd.
  destruct (Duration.span_digits s) as [ds' after] eqn:Hs. cbn [fst] in Hd.
  destruct (negb (String.eqb ds' "")); cbn [andb]; [|discriminate].
  destruct (Duration.starts_with "}" after) eqn:Hafter; [|discriminate].
  intros [= <-]. apply span_digits_split in Hs.
  destruct after as [|a after]; [discriminate|].
  unfold Duration.starts_with in Hafter. cbn [String.prefix] in Hafter.
  destruct (Ascii.ascii_dec "}" a) as [<-|]; [|discriminate].
  eauto.
Qed.

(** X19: without arguments there is nothing to replace with: [dfpFormat]
    returns every string as it is, placeholders included. *)
Theorem dfpFormat_no_args (text : string) :
  Format.dfpFormat text [] = text.
Proof.
  unfold Format.dfpFormat.
  assert (Hgen : forall n s, (String.length s <= n)%nat -> Format.scan [] 0 s = s).
  { induction n as [|n IH]; intros s Hlen.
    - destruct s; [reflexivity | cbn in Hlen; lia].
    - destruct s as [|c rest]; [reflexivity|].
      cbn [String.length] in Hlen. cbn [Format.scan].
      destruct (Ascii.eqb c "{") eqn:Hc; [|now rewrite IH by lia].
      destruct (Format.placeholder rest) as [ds|] eqn:Hp; [|now rewrite IH by lia].
      destruct (placeholder_shape rest ds Hp) as (post & -> & Hds).
      apply Ascii.eqb_eq in Hc. subst c.
      rewrite append_length in Hlen. cbn [String.length] in Hlen.
      rewrite scan_skip.
      change (String "}" post) with ("}" +:+ post) at 1.
      rewrite drop_placeholder.
      rewrite IH by lia.
      unfold Format.replacer. cbn [length Z.of_nat].
      pose proof (parseInt_nonneg ds Hds) as Hnn.
      replace (Duration.parseInt ds <? Z.of_nat 0) with false
        by (symmetry; apply Z.ltb_ge; cbn; lia).
      change (String "}" post) with ("}" +:+ post).
      change (String "{" (ds +:+ "}" +:+ post)) with ("{" +:+ ds +:+ "}" +:+ post).
      now rewrite !append_assoc. }
  apply (Hgen (String.length text)). lia.
Qed.

(** X20: a string without an opening brace is returned as it is, whatever
    the arguments. *)
Theorem dfpFormat_no_brace (text : string) (args : list string) :
  no_brace text = true -> Format.dfpFormat text args = text.
Proof.
  unfold Format.dfpFormat, no_brace.
  induction text as [|c rest IH]; [reflexivity|].
  cbn [list_ascii_of_string forallb Format.scan]. intros H.
  apply andb_true_iff in H as [Hc Hrest].
  apply negb_true_iff in Hc. rewrite Hc. f_equal. now apply IH.
Qed.

Lemma dfpFormat_no_brace_witness :
  no_brace "PPID must be a string" = true /\
  Format.dfpFormat "PPID must be a string" ["a"; "b"] = "PPID must be a string".
Proof.
  split; [reflexivity|].
  apply (dfpFormat_no_brace "PPID must be a string" ["a"; "b"]). reflexivity.
Defined.

(** The first placeholder of a string: what stands before it is copied, the
    placeholder is given to the replacer, and the scan goes on behind the
    closing brace. *)
Lemma scan_first_placeholder (args : list string) (pre post : string) (c : ascii) (ds : string) :
  no_brace pre = true ->
  forallb Duration.is_digit (list_ascii_of_string (String c ds)) = true ->
  Format.scan args 0 (pre +:+ "{" +:+ String c ds +:+ "}" +:+ post)
  = pre +:+ Format.replacer args (String c ds) +:+ Format.scan args 0 post.
Proof.
  intros Hpre Hds. unfold no_brace in Hpre.
  induction pre as [|a pre IH].
  - change ("" +:+ "{" +:+ String c ds +:+ "}" +:+ post)
      with (String "{" (String c ds +:+ String "}" post)).
    change ("" +:+ Format.replacer args (String c ds) +:+ Format.scan args 0 post)
      with (Format.replacer args (String c ds) +:+ Format.scan args 0 post).
    cbn [Format.scan Ascii.eqb Bool.eqb]. 
    assert (Hp : Format.placeholder (String c ds +:+ String "}" post) = Some (String c ds)).
    { unfold Format.placeholder.
      rewrite (span_digits_app (String c ds) (String "}" post) Hds eq_refl).
      cbn. destruct post; reflexivity. }
    rewrite Hp. f_equal. rewrite scan_skip. f_equal.
    change (String "}" post) with ("}" +:+ post).
    apply drop_placeholder.
  - cbn [list_ascii_of_string forallb] in Hpre.
    apply andb_true_iff in Hpre as [Ha Hpre]. apply negb_true_iff in Ha.
    change (String a pre +:+ "{" +:+ String c ds +:+ "}" +:+ post)
      with (String a (pre +:+ "{" +:+ String c ds +:+ "}" +:+ post)).
    cbn [Format.scan]. rewrite Ha, (IH Hpre). reflexivity.
Qed.

(** X21: a placeholder whose number names an argument is replaced by that
    argument, taken as it is (braces in it are not looked at again); what
    follows is formatted on its own. *)
Theorem dfpFormat_replaces (args : list string) (pre post : string) (c : ascii) (ds : string) :
  no_brace pre = true ->
  forallb Duration.is_digit (list_ascii_of_string (String c ds)) = true ->
  Format.canonical (String c ds) = true ->
  Duration.parseInt (String c ds) < Z.of_nat (length args) ->
  Format.dfpFormat (pre +:+ "{" +:+ String c ds +:+ "}" +:+ post) args
  = pre +:+ nth (Z.to_nat (Duration.parseInt (String c ds))) args "undefined"
        +:+ Format.dfpFormat post args.
Proof.
  intros Hpre Hds Hcan Hlt. unfold Format.dfpFormat.
  rewrite (scan_first_placeholder args pre post c ds Hpre Hds).
  unfold Format.replacer. rewrite Hcan.
  destruct (Z.ltb_spec (Duration.parseInt (String c ds)) (Z.of_nat (length args))); [|lia].
  reflexivity.
Qed.

Lemma dfpFormat_replaces_witness :
  let args := ["{0}"; "string"] in
  (no_brace "'" = true /\
   forallb Duration.is_digit (list_ascii_of_string "0") = true /\
   Format.canonical "0" = true /\
   Duration.parseInt "0" < Z.of_nat (length args)) /\
  Format.dfpFormat ("'" +:+ "{" +:+ "0" +:+ "}" +:+ "' must be of number or {1} type") args
  = "'" +:+ nth (Z.to_nat (Duration.parseInt "0")) args "undefined"
        +:+ Format.dfpFormat "' must be of number or {1} type" args.
Proof.
  split; [repeat split|].
  apply (dfpFormat_replaces ["{0}"; "string"] "'" "' must be of number or {1} type" "0" "");
    reflexivity.
Defined.

(** X22: a placeholder whose number is not below the number of arguments
    stays in the string as it is written. *)
Theorem dfpFormat_keeps_unknown (args : list string) (pre post : string) (c : ascii) (ds : string) :
  no_brace pre = true ->
  forallb Duration.is_digit (list_ascii_of_string (String c ds)) = true ->
  Z.of_nat (length args) <= Duration.parseInt (String c ds) ->
  Format.dfpFormat (pre +:+ "{" +:+ String c ds +:+ "}" +:+ post) args
  = pre +:+ ("{" +:+ String c ds +:+ "}") +:+ Format.dfpFormat post args.
Proof.
  intros Hpre Hds Hge. unfold Format.dfpFormat.
  rewrite (scan_first_placeholder args pre post c ds Hpre Hds).
  unfold Format.replacer.
  destruct (Z.ltb_spec (Duration.parseInt (String c ds)) (Z.of_nat (length args))); [lia|].
  reflexivity.
Qed.

Lemma dfpFormat_keeps_unknown_witness :
  let args := ["a"; "b"] in
  (no_brace "x" = true /\
   forallb Duration.is_digit (list_ascii_of_string "2") = true /\
   Z.of_nat (length args) <= Duration.parseInt "2") /\
  Format.dfpFormat ("x" +:+ "{" +:+ "2" +:+ "}" +:+ "{1}") args
  = "x" +:+ ("{" +:+ "2" +:+ "}") +:+ Format.dfpFormat "{1}" args.
Proof.
  split; [repeat split; vm_compute; discriminate|].
  apply (dfpFormat_keeps_unknown ["a"; "b"] "x" "{1}" "2" "");
    [reflexivity | reflexivity | vm_compute; discriminate].
Defined.

(** ** [dfpIDGenerator] *)

Lemma js_in_insert (id x : string) (g : gset string) :
  IDGenerator.js_in x g = true -> IDGenerator.js_in x ({[ id ]} ∪ g) = true.
Proof.
  unfold IDGenerator.js_in. intros H.
  apply orb_true_iff in H as [H|H]; apply orb_true_iff; [left|right; exact H].
  apply bool_decide_eq_true in H. apply bool_decide_eq_true.
  apply elem_of_union. now right.
Qed.

(** X23: an id [generateID] returns was not taken before the call and is
    taken after it; it is [gpt-ad-] followed by one of the draws, it is the
    only key added, and every id taken before stays taken. *)
Theorem generateID_fresh (draws draws' : list string) (g g' : gset string) (id : string) :
  IDGenerator.generateID draws g = Some (id, draws', g') ->
  IDGenerator.isTaken id g = false /\
  IDGenerator.isTaken id g' = true /\
  g' = {[ id ]} ∪ g /\
  (exists number, In number draws /\ id = "gpt-ad-" +:+ number) /\
  forall x, IDGenerator.isTaken x g = true -> IDGenerator.isTaken x g' = true.
Proof.
  unfold IDGenerator.isTaken.
  induction draws as [|number draws IH]; [discriminate|].
  cbn [IDGenerator.generateID].
  destruct (IDGenerator.js_in ("gpt-ad-" +:+ number) g) eqn:Hin.
  - intros H. destruct (IH H) as (H1 & H2 & H3 & (k & Hk & Hid) & H5).
    repeat split; try assumption. exists k. split; [now right | exact Hid].
  - intros [= <- <- <-]. repeat split.
    + exact Hin.
    + unfold IDGenerator.js_in. apply orb_true_iff. left.
      apply bool_decide_eq_true. apply elem_of_union. left.
      now apply elem_of_singleton.
    + exists number. split; [now left | reflexivity].
    + intros x. apply js_in_insert.
Qed.

Lemma generateID_fresh_witness :
  let g : gset string := {[ "gpt-ad-41" ]} in
  IDGenerator.generateID ["41"; "7"; "9"] g = Some ("gpt-ad-7", ["9"], {[ "gpt-ad-7" ]} ∪ g) /\
  IDGenerator.isTaken "gpt-ad-7" g = false /\
  IDGenerator.isTaken "gpt-ad-7" ({[ "gpt-ad-7" ]} ∪ g) = true /\
  {[ "gpt-ad-7" ]} ∪ g = {[ "gpt-ad-7" ]} ∪ g /\
  (exists number, In number ["41"; "7"; "9"] /\ "gpt-ad-7" = "gpt-ad-" +:+ number) /\
  forall x, IDGenerator.isTaken x g = true ->
            IDGenerator.isTaken x ({[ "gpt-ad-7" ]} ∪ g) = true.
Proof.
  assert (H : IDGenerator.generateID ["41"; "7"; "9"] ({[ "gpt-ad-41" ]} : gset string)
              = Some ("gpt-ad-7", ["9"], {[ "gpt-ad-7" ]} ∪ {[ "gpt-ad-41" ]})).
  { vm_compute. reflexivity. }
  split; [exact H|].
  exact (generateID_fresh _ _ _ _ _ H).
Defined.

(** X24: [generateID] comes to a result exactly when one of the draws gives
    an id that is not taken; as long as the draws collide it goes on. *)
Theorem generateID_returns_iff (draws : list string) (g : gset string) :
  is_Some (IDGenerator.generateID draws g) <->
  exists number, In number draws /\ IDGenerator.isTaken ("gpt-ad-" +:+ number) g = false.
Proof.
  unfold IDGenerator.isTaken. induction draws as [|number draws IH].
  - split; [intros [? H]; discriminate | intros (? & [] & _)].
  - cbn [IDGenerator.generateID].
    destruct (IDGenerator.js_in ("gpt-ad-" +:+ number) g) eqn:Hin.
    + rewrite IH. split.
      * intros (k & Hk & Hfree). exists k. split; [now right | exact Hfree].
      * intros (k & [<-|Hk] & Hfree); [congruence|]. eauto.
    + split; [|intros _; eexists; reflexivity].
      intros _. exists number. split; [now left | exact Hin].
Qed.

(** X25: an element that comes with an id of its own which is not taken
    keeps it, and the id is not written down: it is still not taken after
    the call, so the next element with the same id keeps it too. *)
Theorem dfpIDGenerator_keeps_own_id (own : string) (draws : list string) (g : gset string) :
  own <> "" ->
  IDGenerator.isTaken own g = false ->
  IDGenerator.dfpIDGenerator (Some own) draws g = Some (own, Some own, draws, g) /\
  IDGenerator.isUnique own g = true.
Proof.
  unfold IDGenerator.isUnique, IDGenerator.isTaken, IDGenerator.dfpIDGenerator.
  intros Hown Hfree. rewrite Hfree.
  destruct (String.eqb_spec own ""); [contradiction|]. split; reflexivity.
Qed.

Lemma dfpIDGenerator_keeps_own_id_witness :
  let g : gset string := {[ "gpt-ad-41" ]} in
  ("banner" <> "" /\ IDGenerator.isTaken "banner" g = false) /\
  IDGenerator.dfpIDGenerator (Some "banner") ["41"] g = Some ("banner", Some "banner", ["41"], g) /\
  IDGenerator.isUnique "banner" g = true.
Proof.
  split; [split; [discriminate | vm_compute; reflexivity]|].
  apply (dfpIDGenerator_keeps_own_id "banner" ["41"] {[ "gpt-ad-41" ]});
    [discriminate | vm_compute; reflexivity].
Defined.

(** ** [responsiveResize] *)


Lemma at_index_in_range (boundaries : list Z) (i : Z) :
  0 <= i < Z.of_nat (length boundaries) ->
  exists b, Responsive.at_index boundaries i = Some b.
Proof.
  intros Hi. unfold Responsive.at_index.
  destruct (Z.ltb_spec i 0); [lia|].
  destruct (lookup_lt_is_Some_2 boundaries (Z.to_nat i)) as [b Hb]; [lia|]. eauto.
Qed.

(** X26: the resize listener keeps the index within the boundaries and
    moves it by at most one; with a width that is a number it moves up only
    when the width has reached the next boundary, and down only when the
    width is below the current one. *)
Theorem watchListener_in_bounds (width : option Z) (boundaries : list Z) (index : Z) :
  0 <= index < Z.of_nat (length boundaries) ->
  let index' := Responsive.watchListener width boundaries index in
  0 <= index' < Z.of_nat (length boundaries) /\
  (index' = index \/ index' = index + 1 \/ index' = index - 1) /\
  forall w, width = Some w ->
    (index' = index + 1 ->
     exists b, Responsive.at_index boundaries (index + 1) = Some b /\ b <= w) /\
    (index' = index - 1 ->
     exists b, Responsive.at_index boundaries index = Some b /\ w < b).
Proof.
  intros Hi index'.
  assert (Hgrow : Responsive.couldGrow width boundaries index = true ->
            index + 1 < Z.of_nat (length boundaries) /\
            forall w, width = Some w ->
              exists b, Responsive.at_index boundaries (index + 1) = Some b /\ b <= w).
  { unfold Responsive.couldGrow.
    destruct (Z.leb_spec (Z.of_nat (length boundaries)) (index + 1)); [discriminate|].
    destruct (at_index_in_range boundaries (index + 1)) as [b Hb]; [lia|]. rewrite Hb.
    destruct width as [w|]; cbn [Responsive.js_lt].
    - destruct (Z.ltb_spec w b); [discriminate|].
      intros _. split; [lia|]. intros w' [= <-]. exists b. split; [reflexivity | lia].
    - intros _. split; [lia|]. discriminate. }
  assert (Hshrink : Responsive.couldShrink width boundaries index = true ->
            0 <= index - 1 /\
            forall w, width = Some w ->
              exists b, Responsive.at_index boundaries index = Some b /\ w < b).
  { unfold Responsive.couldShrink.
    destruct (Z.ltb_spec (index - 1) 0); [discriminate|].
    destruct (at_index_in_range boundaries index Hi) as [b Hb]. rewrite Hb.
    destruct width as [w|]; cbn [Responsive.js_ge].
    - destruct (Z.leb_spec b w); [discriminate|].
      intros _. split; [lia|]. intros w' [= <-]. exists b. split; [reflexivity | lia].
    - intros _. split; [lia|]. discriminate. }
  subst index'. unfold Responsive.watchListener.
  destruct (Responsive.couldGrow width boundaries index).
  - destruct (Hgrow eq_refl) as [Hroom Hw].
    split; [lia|]. split; [auto|].
    intros w Hwidth. split; [intros _; exact (Hw w Hwidth) | intros; lia].
  - destruct (Responsive.couldShrink width boundaries index).
    + destruct (Hshrink eq_refl) as [Hroom Hw].
      split; [lia|]. split; [auto|].
      intros w Hwidth. split; [intros; lia | intros _; exact (Hw w Hwidth)].
    + split; [lia|]. split; [auto|].
      intros w Hwidth. split; intros; lia.
Qed.

Lemma watchListener_in_bounds_witness :
  let boundaries := [320; 780; 1480] in
  0 <= 2 < Z.of_nat (length boundaries) /\
  let index' := Responsive.watchListener (Some 500) boundaries 2 in
  0 <= index' < Z.of_nat (length boundaries) /\
  (index' = 2 \/ index' = 2 + 1 \/ index' = 2 - 1) /\
  forall w, Some 500 = Some w ->
    (index' = 2 + 1 ->
     exists b, Responsive.at_index boundaries (2 + 1) = Some b /\ b <= w) /\
    (index' = 2 - 1 ->
     exists b, Responsive.at_index boundaries 2 = Some b /\ w < b).
Proof.
  split; [cbn; lia|].
  apply (watchListener_in_bounds (Some 500) [320; 780; 1480] 2). cbn; lia.
Defined.




(** ** The configuration command of [dfp] *)

Lemma run_steps_keeps (steps : list Dfp.step) (done : list Dfp.call) (x : Dfp.call) :
  In x done -> In x (fst (Dfp.run_steps steps done)).
Proof.
  revert done. induction steps as [|[msg|calls] steps IH]; intros done Hin; cbn; auto.
  apply IH. apply in_or_app. now left.
Qed.

Lemma run_steps_outcome (steps : list Dfp.step) (done : list Dfp.call) :
  snd (Dfp.run_steps steps done) = inr tt <-> forallb step_ok steps = true.
Proof.
  revert done. induction steps as [|[msg|calls] steps IH]; intros done; cbn.
  - split; reflexivity.
  - split; discriminate.
  - apply IH.
Qed.

Lemma run_steps_last (init : list Dfp.step) (done : list Dfp.call) (x : Dfp.call) :
  ~ In x done ->
  Forall (fun st => ~ In x (step_calls st)) init ->
  In x (fst (Dfp.run_steps (init ++ [inr [x]]) done)) <-> forallb step_ok init = true.
Proof.
  intros Hdone Hinit. revert done Hdone.
  induction Hinit as [|[msg|calls] init Hst Hinit IH]; intros done Hdone.
  - cbn. split; [reflexivity|]. intros _. apply in_or_app. right. now left.
  - cbn. split; [contradiction | discriminate].
  - cbn [app Dfp.run_steps forallb step_ok andb]. apply IH.
    intros Hin. apply in_app_or in Hin as [Hin|Hin]; [contradiction|].
    exact (Hst Hin).
Qed.

Lemma run_steps_reached (pre post : list Dfp.step) (calls done : list Dfp.call) (x : Dfp.call) :
  forallb step_ok pre = true -> In x calls ->
  In x (fst (Dfp.run_steps (pre ++ inr calls :: post) done)).
Proof.
  revert done. induction pre as [|[msg|c] pre IH]; intros done Hpre Hin.
  - cbn. apply run_steps_keeps. apply in_or_app. now right.
  - discriminate.
  - cbn. now apply IH.
Qed.

Lemma addLocation_ok (self : Dfp.Config) :
  step_ok (Dfp.addLocation self)
  = (negb (Dfp.cfg_truthy (Dfp.location self))
     || match Dfp.location self with Dfp.CString _ | Dfp.CArray _ => true | _ => false end) /\
  ~ In Dfp.enableServices (step_calls (Dfp.addLocation self)).
Proof.
  unfold Dfp.addLocation.
  destruct (Dfp.location self) as [| |[|]|[z|]|str|items|props]; cbn;
    try destruct (z =? 0); try destruct (String.eqb str ""); cbn;
    (split; [reflexivity | intros H; repeat (destruct H as [H|H]; try discriminate); exact H]).
Qed.

Lemma addPPID_ok (self : Dfp.Config) :
  step_ok (Dfp.addPPID self)
  = (negb (Dfp.cfg_truthy (Dfp.ppid self))
     || match Dfp.ppid self with Dfp.CString _ => true | _ => false end) /\
  ~ In Dfp.enableServices (step_calls (Dfp.addPPID self)).
Proof.
  unfold Dfp.addPPID.
  destruct (Dfp.ppid self) as [| |[|]|[z|]|str|items|props]; cbn;
    try destruct (z =? 0); try destruct (String.eqb str ""); cbn;
    (split; [reflexivity | intros H; repeat (destruct H as [H|H]; try discriminate); exact H]).
Qed.

Lemma addTargeting_ok (self : Dfp.Config) :
  step_ok (Dfp.addTargeting self)
  = (negb (Dfp.cfg_truthy (Dfp.globalTargeting self))
     || String.eqb (Dfp.cfg_typeof (Dfp.globalTargeting self)) "object") /\
  ~ In Dfp.enableServices (step_calls (Dfp.addTargeting self)).
Proof.
  unfold Dfp.addTargeting.
  destruct (Dfp.cfg_truthy (Dfp.globalTargeting self)); cbn [negb orb]; [|split; [reflexivity|auto]].
  destruct (String.eqb (Dfp.cfg_typeof (Dfp.globalTargeting self)) "object");
    cbn [negb step_ok step_calls]; (split; [reflexivity|]); [|auto].
  intros Hin. apply in_map_iff in Hin as (kv & Heq & _). discriminate.
Qed.

Lemma addSafeFrameConfig_ok (self : Dfp.Config) :
  step_ok (Dfp.addSafeFrameConfig self)
  = (negb (Dfp.cfg_truthy (Dfp.safeFrameConfig self))
     || String.eqb (Dfp.cfg_typeof (Dfp.globalTargeting self)) "object") /\
  ~ In Dfp.enableServices (step_calls (Dfp.addSafeFrameConfig self)).
Proof.
  unfold Dfp.addSafeFrameConfig.
  destruct (Dfp.cfg_truthy (Dfp.safeFrameConfig self)); cbn [negb orb]; [|split; [reflexivity|auto]].
  destruct (String.eqb (Dfp.cfg_typeof (Dfp.globalTargeting self)) "object");
    cbn [negb step_ok step_calls]; (split; [reflexivity|]); [|auto].
  intros [H|[]]. discriminate.
Qed.

(** X28: the command ends without error, and calls
    [googletag.enableServices()], exactly for the configurations of
    [config_ok]; a safe-frame configuration is judged by the type of the
    targeting, never by its own.  [setForceSafeFrame] and [setCentering]
    are called in every case, before any error. *)
Theorem configure_enableServices_iff (self : Dfp.Config) :
  (snd (Dfp.configure self) = inr tt <-> config_ok self = true) /\
  (In Dfp.enableServices (fst (Dfp.configure self)) <-> config_ok self = true) /\
  In (Dfp.setForceSafeFrame (Dfp.forceSafeFrame self)) (fst (Dfp.configure self)) /\
  In (Dfp.setCentering (Dfp.centering self)) (fst (Dfp.configure self)).
Proof.
  destruct (addLocation_ok self) as [Hl Hl'], (addPPID_ok self) as [Hp Hp'],
    (addTargeting_ok self) as [Ht Ht'], (addSafeFrameConfig_ok self) as [Hs Hs'].
  assert (Hok : forallb step_ok
                  [Dfp.addLocation self; Dfp.addPPID self; Dfp.addTargeting self;
                   Dfp.addSafeFrameConfig self] = config_ok self).
  { cbn [forallb]. rewrite Hl, Hp, Ht, Hs. unfold config_ok.
    rewrite andb_true_r, !andb_assoc. reflexivity. }
  unfold Dfp.configure.
  split; [|split; [|split]].
  - rewrite run_steps_outcome. cbn [forallb step_ok andb] in *.
    rewrite andb_true_r in *. now rewrite Hok.
  - change [inr (if Dfp.enableSingleRequestArchitecture self then [Dfp.enableSingleRequest] else []);
            inr (if Dfp.enableVideoAds_flag self then [Dfp.enableVideoAds] else []);
            inr (if Dfp.collapseIfEmpty self then [Dfp.collapseIfEmpty_call] else []);
            inr (if Dfp.disableInitialLoad self then [Dfp.disableInitialLoad_call] else []);
            inr (if Dfp.enableSyncRendering self then [Dfp.enableSyncRendering_call] else []);
            inr [Dfp.setForceSafeFrame (Dfp.forceSafeFrame self)];
            inr [Dfp.setCentering (Dfp.centering self)];
            Dfp.addLocation self; Dfp.addPPID self; Dfp.addTargeting self;
            Dfp.addSafeFrameConfig self; inr [Dfp.enableServices]]
      with ([inr (if Dfp.enableSingleRequestArchitecture self then [Dfp.enableSingleRequest] else []);
             inr (if Dfp.enableVideoAds_flag self then [Dfp.enableVideoAds] else []);
             inr (if Dfp.collapseIfEmpty self then [Dfp.collapseIfEmpty_call] else []);
             inr (if Dfp.disableInitialLoad self then [Dfp.disableInitialLoad_call] else []);
             inr (if Dfp.enableSyncRendering self then [Dfp.enableSyncRendering_call] else []);
             inr [Dfp.setForceSafeFrame (Dfp.forceSafeFrame self)];
             inr [Dfp.setCentering (Dfp.centering self)];
             Dfp.addLocation self; Dfp.addPPID self; Dfp.addTargeting self;
             Dfp.addSafeFrameConfig self] ++ [inr [Dfp.enableServices]]).
    rewrite run_steps_last.
    + cbn [forallb step_ok andb] in *. now rewrite Hok.
    + intros [].
    + repeat constructor; try assumption; cbn;
        try (destruct (Dfp.enableSingleRequestArchitecture self));
        try (destruct (Dfp.enableVideoAds_flag self));
        try (destruct (Dfp.collapseIfEmpty self));
        try (destruct (Dfp.disableInitialLoad self));
        try (destruct (Dfp.enableSyncRendering self));
        cbn; intros H; repeat (destruct H as [H|H]; try discriminate); exact H.
  - apply (run_steps_reached
             [inr (if Dfp.enableSingleRequestArchitecture self then [Dfp.enableSingleRequest] else []);
              inr (if Dfp.enableVideoAds_flag self then [Dfp.enableVideoAds] else []);
              inr (if Dfp.collapseIfEmpty self then [Dfp.collapseIfEmpty_call] else []);
              inr (if Dfp.disableInitialLoad self then [Dfp.disableInitialLoad_call] else []);
              inr (if Dfp.enableSyncRendering self then [Dfp.enableSyncRendering_call] else [])]);
      [reflexivity | now left].
  - apply (run_steps_reached
             [inr (if Dfp.enableSingleRequestArchitecture self then [Dfp.enableSingleRequest] else []);
              inr (if Dfp.enableVideoAds_flag self then [Dfp.enableVideoAds] else []);
              inr (if Dfp.collapseIfEmpty self then [Dfp.collapseIfEmpty_call] else []);
              inr (if Dfp.disableInitialLoad self then [Dfp.disableInitialLoad_call] else []);
              inr (if Dfp.enableSyncRendering self then [Dfp.enableSyncRendering_call] else []);
              inr [Dfp.setForceSafeFrame (Dfp.forceSafeFrame self)]]);
      [reflexivity | now left].
Qed.
